(** * The user account model of the data layer

    A shallow embedding of [app/database/models/ms_schema/user.py]: the
    [UserModel] entity, its constructor, its serialisation, its query helpers
    and its persistence operations, over an explicit model of the tables the
    object-relational mapper manages. *)

From Stdlib Require Import ZArith List String Bool Lia PrimFloat Permutation.
Import ListNotations.
Open Scope string_scope.
Open Scope list_scope.
Open Scope Z_scope.

(** ** Results of calls into the persistence layer

    A call either returns or raises; the exceptions are the ones the mapper
    raises on the paths this file takes. *)

Inductive db_error : Type :=
| IntegrityError        (* a UNIQUE constraint rejected the flush *)
| InvalidRequestError   (* unknown entity property, or instance not persisted *)
| ValueError            (* a string holding NUL was bound, or an empty salt given *)
| DataError             (* a value longer than its column was written *)
| OtherHashMethod.      (* a hash of a method the development leaves out *)

Inductive result (A : Type) : Type :=
| Ok (a : A)
| Raise (e : db_error).

Arguments Ok {A} a.
Arguments Raise {A} e.

Definition bind {A B : Type} (r : result A) (k : A -> result B) : result B :=
  match r with
  | Ok a => k a
  | Raise e => Raise e
  end.

Notation "x <- r ;; k" := (bind r (fun x => k))
  (at level 61, r at next level, right associativity).

(** ** Values held by columns and by the serialised dictionary *)

Record datetime : Type := {
  year : Z; month : Z; day : Z;
  hour : Z; minute : Z; second : Z; microsecond : Z
}.

Definition datetime_eqb (a b : datetime) : bool :=
  (year a =? year b) && (month a =? month b) && (day a =? day b) &&
  (hour a =? hour b) && (minute a =? minute b) && (second a =? second b) &&
  (microsecond a =? microsecond b).

(** Modelled from the spec: the three related entities live in modules of
    their own ([bit_schema/personal_background.py], [organization.py],
    [user_extension.py]).  Each is a row with a surrogate key, the reference
    to the user it belongs to, and its remaining columns.  The owned records
    always reference a user; an organisation may be left without one. *)
Record PersonalBackgroundModel : Type := {
  background_id : Z;
  background_user_id : Z;
  background_data : string
}.

Record OrganizationModel : Type := {
  organization_id : Z;
  organization_rep_id : option Z;
  organization_data : string
}.

Record UserExtensionModel : Type := {
  extension_id : Z;
  extension_user_id : Z;
  extension_data : string
}.

Inductive PyValue : Type :=
| PyNone
| PyBool (b : bool)
| PyInt (z : Z)
| PyFloat (f : float)
| PyStr (s : string)
| PyDateTime (d : datetime)
| PyOrganization (o : OrganizationModel).

Definition of_option {A : Type} (inj : A -> PyValue) (o : option A) : PyValue :=
  match o with
  | Some a => inj a
  | None => PyNone
  end.

(** ** The entity

    One field per column of lines 27-63.  The five constructor arguments have
    the types the class docstring gives them; every other column is
    nullable and optional, except the three that the constructor computes on
    every path ([password_hash], [is_admin], [registration_date]). *)

Record UserModel : Type := {
  id : option Z;
  name : string;
  username : string;
  email : string;
  password_hash : string;
  registration_date : float;
  terms_and_conditions_checked : bool;
  is_admin : bool;
  is_email_verified : option bool;
  email_verification_date : option datetime;
  current_mentorship_role : option Z;
  membership_status : option Z;
  bio : option string;
  location : option string;
  occupation : option string;
  current_organization : option string;
  slack_username : option string;
  social_media_links : option string;
  skills : option string;
  interests : option string;
  resume_url : option string;
  photo_url : option string;
  need_mentoring : option bool;
  available_to_mentor : option bool
}.

(** Attribute assignment on an instance: every other field is kept. *)

Definition set_id (v : option Z) (u : UserModel) : UserModel :=
  {| id := v;
     name := name u; username := username u; email := email u;
     password_hash := password_hash u;
     registration_date := registration_date u;
     terms_and_conditions_checked := terms_and_conditions_checked u;
     is_admin := is_admin u; is_email_verified := is_email_verified u;
     email_verification_date := email_verification_date u;
     current_mentorship_role := current_mentorship_role u;
     membership_status := membership_status u;
     bio := bio u; location := location u; occupation := occupation u;
     current_organization := current_organization u;
     slack_username := slack_username u;
     social_media_links := social_media_links u;
     skills := skills u; interests := interests u;
     resume_url := resume_url u; photo_url := photo_url u;
     need_mentoring := need_mentoring u;
     available_to_mentor := available_to_mentor u |}.

Definition set_password_hash (v : string) (u : UserModel) : UserModel :=
  {| id := id u;
     name := name u; username := username u; email := email u;
     password_hash := v;
     registration_date := registration_date u;
     terms_and_conditions_checked := terms_and_conditions_checked u;
     is_admin := is_admin u; is_email_verified := is_email_verified u;
     email_verification_date := email_verification_date u;
     current_mentorship_role := current_mentorship_role u;
     membership_status := membership_status u;
     bio := bio u; location := location u; occupation := occupation u;
     current_organization := current_organization u;
     slack_username := slack_username u;
     social_media_links := social_media_links u;
     skills := skills u; interests := interests u;
     resume_url := resume_url u; photo_url := photo_url u;
     need_mentoring := need_mentoring u;
     available_to_mentor := available_to_mentor u |}.

Definition set_current_organization (v : option string) (u : UserModel) : UserModel :=
  {| id := id u;
     name := name u; username := username u; email := email u;
     password_hash := password_hash u;
     registration_date := registration_date u;
     terms_and_conditions_checked := terms_and_conditions_checked u;
     is_admin := is_admin u; is_email_verified := is_email_verified u;
     email_verification_date := email_verification_date u;
     current_mentorship_role := current_mentorship_role u;
     membership_status := membership_status u;
     bio := bio u; location := location u; occupation := occupation u;
     current_organization := v;
     slack_username := slack_username u;
     social_media_links := social_media_links u;
     skills := skills u; interests := interests u;
     resume_url := resume_url u; photo_url := photo_url u;
     need_mentoring := need_mentoring u;
     available_to_mentor := available_to_mentor u |}.

Definition set_is_admin (v : bool) (u : UserModel) : UserModel :=
  {| id := id u; name := name u; username := username u; email := email u;
     password_hash := password_hash u;
     registration_date := registration_date u;
     terms_and_conditions_checked := terms_and_conditions_checked u;
     is_admin := v; is_email_verified := is_email_verified u;
     email_verification_date := email_verification_date u;
     current_mentorship_role := current_mentorship_role u;
     membership_status := membership_status u; bio := bio u;
     location := location u; occupation := occupation u;
     current_organization := current_organization u;
     slack_username := slack_username u;
     social_media_links := social_media_links u; skills := skills u;
     interests := interests u; resume_url := resume_url u;
     photo_url := photo_url u; need_mentoring := need_mentoring u;
     available_to_mentor := available_to_mentor u |}.

Definition set_is_email_verified (v : option bool) (u : UserModel) : UserModel :=
  {| id := id u; name := name u; username := username u; email := email u;
     password_hash := password_hash u;
     registration_date := registration_date u;
     terms_and_conditions_checked := terms_and_conditions_checked u;
     is_admin := is_admin u; is_email_verified := v;
     email_verification_date := email_verification_date u;
     current_mentorship_role := current_mentorship_role u;
     membership_status := membership_status u; bio := bio u;
     location := location u; occupation := occupation u;
     current_organization := current_organization u;
     slack_username := slack_username u;
     social_media_links := social_media_links u; skills := skills u;
     interests := interests u; resume_url := resume_url u;
     photo_url := photo_url u; need_mentoring := need_mentoring u;
     available_to_mentor := available_to_mentor u |}.

Definition set_registration_date (v : float) (u : UserModel) : UserModel :=
  {| id := id u; name := name u; username := username u; email := email u;
     password_hash := password_hash u; registration_date := v;
     terms_and_conditions_checked := terms_and_conditions_checked u;
     is_admin := is_admin u; is_email_verified := is_email_verified u;
     email_verification_date := email_verification_date u;
     current_mentorship_role := current_mentorship_role u;
     membership_status := membership_status u; bio := bio u;
     location := location u; occupation := occupation u;
     current_organization := current_organization u;
     slack_username := slack_username u;
     social_media_links := social_media_links u; skills := skills u;
     interests := interests u; resume_url := resume_url u;
     photo_url := photo_url u; need_mentoring := need_mentoring u;
     available_to_mentor := available_to_mentor u |}.

Definition set_need_mentoring (v : option bool) (u : UserModel) : UserModel :=
  {| id := id u; name := name u; username := username u; email := email u;
     password_hash := password_hash u;
     registration_date := registration_date u;
     terms_and_conditions_checked := terms_and_conditions_checked u;
     is_admin := is_admin u; is_email_verified := is_email_verified u;
     email_verification_date := email_verification_date u;
     current_mentorship_role := current_mentorship_role u;
     membership_status := membership_status u; bio := bio u;
     location := location u; occupation := occupation u;
     current_organization := current_organization u;
     slack_username := slack_username u;
     social_media_links := social_media_links u; skills := skills u;
     interests := interests u; resume_url := resume_url u;
     photo_url := photo_url u; need_mentoring := v;
     available_to_mentor := available_to_mentor u |}.

Definition set_available_to_mentor (v : option bool) (u : UserModel) : UserModel :=
  {| id := id u; name := name u; username := username u; email := email u;
     password_hash := password_hash u;
     registration_date := registration_date u;
     terms_and_conditions_checked := terms_and_conditions_checked u;
     is_admin := is_admin u; is_email_verified := is_email_verified u;
     email_verification_date := email_verification_date u;
     current_mentorship_role := current_mentorship_role u;
     membership_status := membership_status u; bio := bio u;
     location := location u; occupation := occupation u;
     current_organization := current_organization u;
     slack_username := slack_username u;
     social_media_links := social_media_links u; skills := skills u;
     interests := interests u; resume_url := resume_url u;
     photo_url := photo_url u; need_mentoring := need_mentoring u;
     available_to_mentor := v |}.

(** ** The tables

    [users] holds the rows of the [users] table in the order the database
    returns them to an unordered query; [next_id] is the sequence behind the
    integer primary key. *)

Record Store : Type := {
  users : list UserModel;
  personal_backgrounds : list PersonalBackgroundModel;
  organizations : list OrganizationModel;
  user_extensions : list UserExtensionModel;
  next_id : Z
}.

Definition empty_store : Store :=
  {| users := []; personal_backgrounds := []; organizations := [];
     user_extensions := []; next_id := 1 |}.

Definition option_Z_eqb (a b : option Z) : bool :=
  match a, b with
  | Some x, Some y => x =? y
  | None, None => true
  | _, _ => false
  end.

Definition has_id (i : Z) (u : UserModel) : bool := option_Z_eqb (id u) (Some i).

(** ** Relationships (lines 66-83)

    Each relationship is scalar ([uselist=False]) and is loaded through the
    foreign key of the related table; an instance without a primary key has
    nothing related to it. *)

Definition background (st : Store) (u : UserModel) : option PersonalBackgroundModel :=
  match id u with
  | Some i => find (fun b => background_user_id b =? i) (personal_backgrounds st)
  | None => None
  end.

Definition organization (st : Store) (u : UserModel) : option OrganizationModel :=
  match id u with
  | Some i => find (fun o => option_Z_eqb (organization_rep_id o) (Some i)) (organizations st)
  | None => None
  end.

Definition user_extension (st : Store) (u : UserModel) : option UserExtensionModel :=
  match id u with
  | Some i => find (fun e => extension_user_id e =? i) (user_extensions st)
  | None => None
  end.

Definition relationships : list string :=
  ["background"; "organization"; "user_extension"].

(** ** Declared columns (lines 27-63), by name *)

Definition columns : list (string * (UserModel -> PyValue)) :=
  [ ("id", fun u => of_option PyInt (id u));
    ("name", fun u => PyStr (name u));
    ("username", fun u => PyStr (username u));
    ("email", fun u => PyStr (email u));
    ("password_hash", fun u => PyStr (password_hash u));
    ("registration_date", fun u => PyFloat (registration_date u));
    ("terms_and_conditions_checked", fun u => PyBool (terms_and_conditions_checked u));
    ("is_admin", fun u => PyBool (is_admin u));
    ("is_email_verified", fun u => of_option PyBool (is_email_verified u));
    ("email_verification_date", fun u => of_option PyDateTime (email_verification_date u));
    ("current_mentorship_role", fun u => of_option PyInt (current_mentorship_role u));
    ("membership_status", fun u => of_option PyInt (membership_status u));
    ("bio", fun u => of_option PyStr (bio u));
    ("location", fun u => of_option PyStr (location u));
    ("occupation", fun u => of_option PyStr (occupation u));
    ("current_organization", fun u => of_option PyStr (current_organization u));
    ("slack_username", fun u => of_option PyStr (slack_username u));
    ("social_media_links", fun u => of_option PyStr (social_media_links u));
    ("skills", fun u => of_option PyStr (skills u));
    ("interests", fun u => of_option PyStr (interests u));
    ("resume_url", fun u => of_option PyStr (resume_url u));
    ("photo_url", fun u => of_option PyStr (photo_url u));
    ("need_mentoring", fun u => of_option PyBool (need_mentoring u));
    ("available_to_mentor", fun u => of_option PyBool (available_to_mentor u)) ].

Definition attribute_names : list string := map fst columns ++ relationships.

Fixpoint assoc {A : Type} (key : string) (l : list (string * A)) : option A :=
  match l with
  | [] => None
  | (k, v) :: rest => if String.eqb k key then Some v else assoc key rest
  end.

(** ** Strings as the database sees them

    A string is held as the bytes of its UTF-8 encoding.  The driver refuses
    to bind a string that holds a NUL, and a [String(n)] column takes at most
    [n] characters, a character being every byte that is not a continuation
    byte. *)

Definition NUL : Ascii.ascii :=
  Ascii.Ascii false false false false false false false false.

Fixpoint has_nul (s : string) : bool :=
  match s with
  | EmptyString => false
  | String c rest => Ascii.eqb c NUL || has_nul rest
  end.

Definition is_continuation (c : Ascii.ascii) : bool :=
  match c with
  | Ascii.Ascii _ _ _ _ _ _ false true => true
  | _ => false
  end.

Fixpoint char_length (s : string) : nat :=
  match s with
  | EmptyString => O
  | String c rest =>
      if is_continuation c then char_length rest else S (char_length rest)
  end.

(** ** Queries

    [filter_by(key=value)] resolves [key] in the namespace of the entity and
    raises when the entity has no such property; on a column it keeps the
    rows whose column equals the value ([IS NULL] when the value is
    [None]).  Executing the query binds the value, which raises for a
    string that holds a NUL.  Every helper of this file filters on a column
    name, so the comparison of a relationship with a related object is left
    out. *)

Definition sql_eq (a b : PyValue) : bool :=
  match a, b with
  | PyNone, PyNone => true
  | PyBool x, PyBool y => Bool.eqb x y
  | PyInt x, PyInt y => x =? y
  | PyFloat x, PyFloat y => PrimFloat.eqb x y
  | PyStr x, PyStr y => String.eqb x y
  | PyDateTime x, PyDateTime y => datetime_eqb x y
  | _, _ => false
  end.

Definition unbindable (value : PyValue) : bool :=
  match value with
  | PyStr s => has_nul s
  | _ => false
  end.

Definition filter_by (key : string) (value : PyValue) (rows : list UserModel)
  : result (list UserModel) :=
  match assoc key columns with
  | Some column =>
      if unbindable value then Raise ValueError
      else Ok (filter (fun u => sql_eq (column u) value) rows)
  | None => Raise InvalidRequestError
  end.

Definition first (rows : list UserModel) : option UserModel :=
  match rows with
  | [] => None
  | u :: _ => Some u
  end.

(** What [first()] returns for the rows that satisfy [P]: nothing when no
    row does, otherwise the earliest such row of the table. *)
Definition first_match (P : UserModel -> Prop) (rows : list UserModel)
    (found : option UserModel) : Prop :=
  match found with
  | None => forall r, In r rows -> ~ P r
  | Some u =>
      exists before after,
        rows = before ++ u :: after /\ P u /\ forall r, In r before -> ~ P r
  end.

Definition all (rows : list UserModel) : list UserModel := rows.

Definition find_by_username (st : Store) (username : string) : result (option UserModel) :=
  rows <- filter_by "username" (PyStr username) (users st) ;;
  Ok (first rows).

Definition find_by_email (st : Store) (email : string) : result (option UserModel) :=
  rows <- filter_by "email" (PyStr email) (users st) ;;
  Ok (first rows).

Definition find_by_id (st : Store) (_id : Z) : result (option UserModel) :=
  rows <- filter_by "id" (PyInt _id) (users st) ;;
  Ok (first rows).

Definition get_all_admins (st : Store) (is_admin : bool) : result (list UserModel) :=
  rows <- filter_by "is_admin" (PyBool is_admin) (users st) ;;
  Ok (all rows).

Definition is_empty (st : Store) : bool :=
  match first (users st) with
  | None => true
  | Some _ => false
  end.

Definition get_all_representatives (st : Store) (is_company_rep : bool)
  : result (list UserModel) :=
  rows <- filter_by "is_company_rep" (PyBool is_company_rep) (users st) ;;
  Ok (all rows).

(** ** Serialisation (lines 106-133)

    The dictionary literal, in the order it is written. *)

Definition json (st : Store) (self : UserModel) : list (string * PyValue) :=
  [ ("id", of_option PyInt (id self));
    ("name", PyStr (name self));
    ("username", PyStr (username self));
    ("password_hash", PyStr (password_hash self));
    ("email", PyStr (email self));
    ("terms_and_conditions_checked", PyBool (terms_and_conditions_checked self));
    ("registration_date", PyFloat (registration_date self));
    ("is_admin", PyBool (is_admin self));
    ("is_email_verified", of_option PyBool (is_email_verified self));
    ("email_verification_date", of_option PyDateTime (email_verification_date self));
    ("current_mentorship_role", of_option PyInt (current_mentorship_role self));
    ("membership_status", of_option PyInt (membership_status self));
    ("bio", of_option PyStr (bio self));
    ("location", of_option PyStr (location self));
    ("occupation", of_option PyStr (occupation self));
    ("current_organization", of_option PyOrganization (organization st self));
    ("slack_username", of_option PyStr (slack_username self));
    ("social_media_links", of_option PyStr (social_media_links self));
    ("skills", of_option PyStr (skills self));
    ("interests", of_option PyStr (interests self));
    ("resume_url", of_option PyStr (resume_url self));
    ("photo_url", of_option PyStr (photo_url self));
    ("need_mentoring", of_option PyBool (need_mentoring self));
    ("available_to_mentor", of_option PyBool (available_to_mentor self)) ].

(** ** Printed form (lines 135-137)

    The two adjacent f-strings are concatenated: one line for the name, one
    for the username, each closed by a line feed. *)

Definition line_feed : Ascii.ascii :=
  Ascii.Ascii false true false true false false false false.

Definition UserModel_repr (self : UserModel) : string :=
  ("User name is " ++ name self ++ String line_feed
     ("User username is " ++ username self ++ String line_feed ""))%string.

(** A string without a line feed. *)
Fixpoint single_line (s : string) : bool :=
  match s with
  | EmptyString => true
  | String c rest => negb (Ascii.eqb c line_feed) && single_line rest
  end.

(** ** Persistence (lines 178-186)

    [save_to_db] adds the instance to the session and commits.  An instance
    without a primary key is inserted and receives the next value of the
    sequence; an instance whose row exists is updated in place.  An instance
    whose row is gone cannot be attached again.  The flush binds every
    column, which raises [ValueError] for a string holding a NUL; the
    database then raises [DataError] for a string longer than its
    [String(n)] column (lines 30-61) and [IntegrityError] when the primary
    key or one of the two [unique=True] columns (lines 31-32) would be
    duplicated.  A commit that raises leaves the rows as they were; the
    sequence value a rejected insert has drawn is not tracked.  The instance
    is known to the session by the value of [id]: callers that assign [id]
    themselves are outside this model. *)

Definition set_text (limit : nat) (v : option string) : list (nat * string) :=
  match v with
  | Some s => [(limit, s)]
  | None => []
  end.

(** The [String(n)] columns of an instance with their declared lengths. *)
Definition text_values (u : UserModel) : list (nat * string) :=
  [ (30%nat, name u); (30%nat, username u); (254%nat, email u);
    (100%nat, password_hash u) ]
  ++ set_text 500 (bio u) ++ set_text 80 (location u)
  ++ set_text 80 (occupation u) ++ set_text 80 (current_organization u)
  ++ set_text 80 (slack_username u) ++ set_text 500 (social_media_links u)
  ++ set_text 500 (skills u) ++ set_text 200 (interests u)
  ++ set_text 200 (resume_url u) ++ set_text 200 (photo_url u).

Definition holds_nul (u : UserModel) : bool :=
  existsb (fun lv => has_nul (snd lv)) (text_values u).

Definition too_long (u : UserModel) : bool :=
  existsb (fun lv => negb (char_length (snd lv) <=? fst lv)%nat) (text_values u).

Definition same_username_or_email (a b : UserModel) : bool :=
  String.eqb (username a) (username b) || String.eqb (email a) (email b).

Definition violates_unique (u : UserModel) (rows : list UserModel) : bool :=
  existsb (same_username_or_email u) rows.

Definition with_users (rows : list UserModel) (n : Z) (st : Store) : Store :=
  {| users := rows;
     personal_backgrounds := personal_backgrounds st;
     organizations := organizations st;
     user_extensions := user_extensions st;
     next_id := n |}.

Definition save_to_db (st : Store) (self : UserModel) : result (Store * UserModel) :=
  match id self with
  | None =>
      if holds_nul self then Raise ValueError
      else if too_long self then Raise DataError
      else if existsb (has_id (next_id st)) (users st) || violates_unique self (users st)
      then Raise IntegrityError
      else
        let self' := set_id (Some (next_id st)) self in
        Ok (with_users (users st ++ [self']) (next_id st + 1) st, self')
  | Some i =>
      if existsb (has_id i) (users st) then
        if holds_nul self then Raise ValueError
        else if too_long self then Raise DataError
        else if violates_unique self (filter (fun r => negb (has_id i r)) (users st))
        then Raise IntegrityError
        else
          Ok (with_users (map (fun r => if has_id i r then self else r) (users st))
                         (next_id st) st, self)
      else Raise InvalidRequestError
  end.

(** [delete_from_db] deletes the row and commits.  The two relationships
    declared with [cascade="all,delete"] take their records with the user;
    the organisation relationship has no delete cascade, so the mapper
    clears the reference and keeps the row (comment of lines 73-75).  As for
    a save, the instance is known by the value of [id]: an instance whose
    row is present is the persistent instance of that row. *)

Definition detach (i : Z) (o : OrganizationModel) : OrganizationModel :=
  if option_Z_eqb (organization_rep_id o) (Some i)
  then {| organization_id := organization_id o;
          organization_rep_id := None;
          organization_data := organization_data o |}
  else o.

Definition delete_from_db (st : Store) (self : UserModel) : result Store :=
  match id self with
  | None => Raise InvalidRequestError
  | Some i =>
      if existsb (has_id i) (users st) then
        Ok {| users := filter (fun r => negb (has_id i r)) (users st);
              personal_backgrounds :=
                filter (fun b => negb (background_user_id b =? i)) (personal_backgrounds st);
              organizations := map (detach i) (organizations st);
              user_extensions :=
                filter (fun e => negb (extension_user_id e =? i)) (user_extensions st);
              next_id := next_id st |}
      else Raise InvalidRequestError
  end.

(** ** Store states reachable through the two persistence operations

    The instance handed to either operation is arbitrary: attributes are
    plain fields that any caller may assign before saving. *)

Inductive reachable : Store -> Prop :=
| reachable_empty : reachable empty_store
| reachable_save st self st' self' :
    reachable st -> save_to_db st self = Ok (st', self') -> reachable st'
| reachable_delete st self st' :
    reachable st -> delete_from_db st self = Ok st' -> reachable st'.

(** Two rows are distinct persisted users when they sit at different
    positions of the table. *)
Definition distinct_rows (st : Store) (a b : UserModel) : Prop :=
  exists i j, i <> j /\ nth_error (users st) i = Some a /\ nth_error (users st) j = Some b.

(** The keys of the table: the primary key and the two unique columns. *)
Definition unique_keys (st : Store) : Prop :=
  NoDup (map id (users st)) /\
  NoDup (map username (users st)) /\
  NoDup (map email (users st)).

(** ** The password hashing library

    [werkzeug.security] is not part of the repository; the two functions the
    model imports are embedded here with what they rest on. *)

Module werkzeug.

(** *** SHA-256 (FIPS 180-4) on bytes and 32-bit words held as integers *)

Definition wrap (x : Z) : Z := x mod 2 ^ 32.

Definition add32 (a b : Z) : Z := wrap (a + b).

Definition rotr (n x : Z) : Z :=
  Z.lor (Z.shiftr x n) (wrap (Z.shiftl x (32 - n))).

Definition Ch (x y z : Z) : Z :=
  Z.lxor (Z.land x y) (Z.land (wrap (Z.lnot x)) z).

Definition Maj (x y z : Z) : Z :=
  Z.lxor (Z.lxor (Z.land x y) (Z.land x z)) (Z.land y z).

Definition Sigma0 (x : Z) : Z := Z.lxor (Z.lxor (rotr 2 x) (rotr 13 x)) (rotr 22 x).
Definition Sigma1 (x : Z) : Z := Z.lxor (Z.lxor (rotr 6 x) (rotr 11 x)) (rotr 25 x).
Definition sigma0 (x : Z) : Z := Z.lxor (Z.lxor (rotr 7 x) (rotr 18 x)) (Z.shiftr x 3).
Definition sigma1 (x : Z) : Z := Z.lxor (Z.lxor (rotr 17 x) (rotr 19 x)) (Z.shiftr x 10).

(** The round constants are the first thirty-two bits of the fractional
    parts of the cube roots of the first sixty-four primes, the initial hash
    value those of the square roots of the first eight. *)
Definition first_primes : list Z :=
  [ 2; 3; 5; 7; 11; 13; 17; 19; 23; 29; 31; 37; 41; 43; 47; 53;
    59; 61; 67; 71; 73; 79; 83; 89; 97; 101; 103; 107; 109; 113; 127; 131;
    137; 139; 149; 151; 157; 163; 167; 173; 179; 181; 191; 193; 197; 199; 211; 223;
    227; 229; 233; 239; 241; 251; 257; 263; 269; 271; 277; 281; 283; 293; 307; 311 ].

(** The integer cube root below [2 ^ bits], one bit at a time. *)
Fixpoint cube_root (bits : nat) (n root : Z) : Z :=
  match bits with
  | O => root
  | S bits' =>
      let candidate := root + 2 ^ Z.of_nat bits' in
      cube_root bits' n (if candidate ^ 3 <=? n then candidate else root)
  end.

Definition K : list Z :=
  map (fun p => wrap (cube_root 36 (p * 2 ^ 96) 0)) first_primes.

Definition H0 : list Z :=
  map (fun p => wrap (Z.sqrt (p * 2 ^ 64))) (firstn 8 first_primes).

(** Big-endian words of a block of bytes. *)
Fixpoint words (bytes : list Z) : list Z :=
  match bytes with
  | a :: b :: c :: d :: rest =>
      (Z.shiftl a 24 + Z.shiftl b 16 + Z.shiftl c 8 + d) :: words rest
  | _ => []
  end.

Definition word_bytes (w : Z) : list Z :=
  [ Z.shiftr w 24 mod 256; Z.shiftr w 16 mod 256; Z.shiftr w 8 mod 256; w mod 256 ].

(** The message schedule: sixteen words of the block, then forty-eight
    derived ones. *)
Fixpoint schedule (more : nat) (w : list Z) : list Z :=
  match more with
  | O => w
  | S more' =>
      let t := List.length w in
      let at_ (back : nat) := nth (t - back) w 0 in
      schedule more'
        (w ++ [add32 (add32 (sigma1 (at_ 2%nat)) (at_ 7%nat))
                     (add32 (sigma0 (at_ 15%nat)) (at_ 16%nat))])
  end.

Definition round (s : list Z) (kw : Z * Z) : list Z :=
  match s with
  | [a; b; c; d; e; f; g; h] =>
      let t1 := add32 (add32 (add32 h (Sigma1 e)) (Ch e f g)) (add32 (fst kw) (snd kw)) in
      let t2 := add32 (Sigma0 a) (Maj a b c) in
      [add32 t1 t2; a; b; c; add32 d t1; e; f; g]
  | _ => s
  end.

Definition compress (s : list Z) (block : list Z) : list Z :=
  let w := schedule 48 (words block) in
  map (fun p => add32 (fst p) (snd p)) (combine s (fold_left round (combine K w) s)).

(** Padding: a one bit, zeros, and the bit length on eight bytes. *)
Definition pad (message : list Z) : list Z :=
  let n := Z.of_nat (List.length message) in
  message ++ [128] ++ repeat 0 (Z.to_nat ((55 - n) mod 64))
          ++ [0; 0; 0; 0] ++ word_bytes (wrap (8 * n)).

Fixpoint blocks (count : nat) (bytes : list Z) : list (list Z) :=
  match count with
  | O => []
  | S count' => firstn 64 bytes :: blocks count' (skipn 64 bytes)
  end.

Definition sha256 (message : list Z) : list Z :=
  let padded := pad message in
  flat_map word_bytes
    (fold_left compress (blocks (List.length padded / 64) padded) H0).

(** *** HMAC (RFC 2104) with SHA-256 *)

(** The key as the two hashes use it: hashed when longer than a block, then
    filled with zeros up to a block. *)
Definition hmac_key (key : list Z) : list Z :=
  let k := if (64 <? Z.of_nat (List.length key)) then sha256 key else key in
  k ++ repeat 0 (64 - List.length k)%nat.

Definition hmac_with (block_key message : list Z) : list Z :=
  sha256 (map (Z.lxor 92) block_key
            ++ sha256 (map (Z.lxor 54) block_key ++ message)).

Definition hmac (key message : list Z) : list Z := hmac_with (hmac_key key) message.

(** *** PBKDF2 (RFC 8018) with HMAC-SHA-256, one block of output *)

Definition xor_bytes (a b : list Z) : list Z :=
  map (fun p => Z.lxor (fst p) (snd p)) (combine a b).

Definition pbkdf2_with (block_key salt : list Z) (iterations : positive) : list Z :=
  let u1 := hmac_with block_key (salt ++ [0; 0; 0; 1]) in
  snd (N.iter (Pos.pred_N iterations)
         (fun ut => let u := hmac_with block_key (fst ut) in (u, xor_bytes (snd ut) u))
         (u1, u1)).

(** *** Strings and bytes *)

Fixpoint bytes (s : string) : list Z :=
  match s with
  | EmptyString => []
  | String c rest => Z.of_N (Ascii.N_of_ascii c) :: bytes rest
  end.

Definition hex_digit (n : Z) : Ascii.ascii :=
  Ascii.ascii_of_N (Z.to_N (if n <? 10 then 48 + n else 87 + n)).

Fixpoint hex (data : list Z) : string :=
  match data with
  | [] => EmptyString
  | b :: rest => String (hex_digit (b / 16)) (String (hex_digit (b mod 16)) (hex rest))
  end.

Definition pbkdf2_hex (password salt : string) (iterations : positive) : string :=
  hex (pbkdf2_with (hmac_key (bytes password)) (bytes salt) iterations).

(** *** The two functions of [werkzeug.security] (release 1.0)

    A hash is [method$salt$digest].  [generate_password_hash] is called with
    its defaults: method [pbkdf2:sha256], which stands for 150000
    iterations, and a salt of eight characters drawn from [SALT_CHARS],
    which is made an argument here. *)

Definition dollar : Ascii.ascii := Ascii.ascii_of_nat 36.
Definition colon : Ascii.ascii := Ascii.ascii_of_nat 58.

Definition DEFAULT_PBKDF2_ITERATIONS : positive := 150000.

Definition salt_char (c : Ascii.ascii) : bool :=
  let n := Ascii.N_of_ascii c in
  ((48 <=? n) && (n <=? 57) || (65 <=? n) && (n <=? 90) || (97 <=? n) && (n <=? 122))%N.

Fixpoint all_salt_chars (s : string) : bool :=
  match s with
  | EmptyString => true
  | String c rest => salt_char c && all_salt_chars rest
  end.

Fixpoint occurs (c : Ascii.ascii) (s : string) : bool :=
  match s with
  | EmptyString => false
  | String c' rest => Ascii.eqb c' c || occurs c rest
  end.

(** What [gen_salt(8)] can return. *)
Definition is_salt (s : string) : bool :=
  (String.length s =? 8)%nat && all_salt_chars s.

(** [s.split(sep, 1)] when the separator occurs: the text before its first
    occurrence and the text after it. *)
Fixpoint partition (sep : Ascii.ascii) (s : string) : option (string * string) :=
  match s with
  | EmptyString => None
  | String c rest =>
      if Ascii.eqb c sep then Some (EmptyString, rest)
      else match partition sep rest with
           | Some (before, after) => Some (String c before, after)
           | None => None
           end
  end.

Fixpoint decimal (acc : N) (digits : string) : option N :=
  match digits with
  | EmptyString => Some acc
  | String c rest =>
      let n := Ascii.N_of_ascii c in
      if ((48 <=? n) && (n <=? 57))%N then decimal (10 * acc + (n - 48))%N rest
      else None
  end.

(** The methods this development covers; every other digest of the
    library, and an iteration count that is not written in plain digits, is
    [OtherMethod]. *)
Inductive method : Type :=
| Plain
| Pbkdf2Sha256 (iterations : positive)
| OtherMethod.

Definition iterations_of (n : N) : positive :=
  match n with
  | N0 => DEFAULT_PBKDF2_ITERATIONS      (* [int(...) or DEFAULT] *)
  | Npos p => p
  end.

Definition parse_method (name : string) : method :=
  if String.eqb name "plain" then Plain
  else if String.eqb name "pbkdf2:sha256" then Pbkdf2Sha256 DEFAULT_PBKDF2_ITERATIONS
  else if String.prefix "pbkdf2:sha256:" name then
    match decimal 0 (String.substring 14 (String.length name - 14) name) with
    | Some n => Pbkdf2Sha256 (iterations_of n)
    | None => OtherMethod
    end
  else OtherMethod.

Definition hash_internal (name salt password : string) : result string :=
  match parse_method name with
  | Plain => Ok password
  | Pbkdf2Sha256 iterations =>
      if String.eqb salt "" then Raise ValueError
      else Ok (pbkdf2_hex password salt iterations)
  | OtherMethod => Raise OtherHashMethod
  end.

Definition generate_password_hash (salt password : string) : string :=
  ("pbkdf2:sha256:150000"
     ++ String dollar
          (salt ++ String dollar (pbkdf2_hex password salt DEFAULT_PBKDF2_ITERATIONS)))%string.

Definition check_password_hash (pwhash password : string) : result bool :=
  match partition dollar pwhash with
  | None => Ok false
  | Some (name, rest) =>
      match partition dollar rest with
      | None => Ok false
      | Some (salt, hashval) =>
          digest <- hash_internal name salt password ;;
          Ok (String.eqb digest hashval)
      end
  end.

End werkzeug.

(** ** A reference hashing scheme

    The [plain] method of the hashing library: the hash is the method name,
    an empty salt and the password itself, separated by dollar signs.  The
    sample users below are built with it. *)

Definition plain_generate_password_hash (salt password : string) : string :=
  ("plain$$" ++ password)%string.

(** ** Inputs of one account creation

    The five constructor arguments, together with what the call reads from
    its environment: the salt the hashing library draws and the reading of
    the clock. *)

Record creation : Type := {
  new_name : string;
  new_username : string;
  new_password : string;
  new_email : string;
  new_terms_and_conditions_checked : bool;
  new_salt : string;
  new_time : float
}.

(** ** Sample data *)

Definition alice_creation : creation :=
  {| new_name := "Alice"; new_username := "alice";
     new_password := "correct horse"; new_email := "alice@example.org";
     new_terms_and_conditions_checked := true;
     new_salt := "Xy12ab9Q"; new_time := 1600000000.5%float |}.

Definition bob_creation : creation :=
  {| new_name := "Bob"; new_username := "bob";
     new_password := "battery staple"; new_email := "bob@example.org";
     new_terms_and_conditions_checked := true;
     new_salt := "Qm48zz0k"; new_time := 1600000100.25%float |}.

(** A second account that asks for a username already taken. *)
Definition alice_again_creation : creation :=
  {| new_name := "Alice B."; new_username := "alice";
     new_password := "hunter2"; new_email := "alice.b@example.org";
     new_terms_and_conditions_checked := true;
     new_salt := "pp01LL7e"; new_time := 1600000200%float |}.

(** An account whose name is one character longer than its column. *)
Definition long_name_creation : creation :=
  {| new_name := "Maximiliana Wilhelmina Augusta!"; new_username := "max";
     new_password := "swordfish"; new_email := "max@example.org";
     new_terms_and_conditions_checked := true;
     new_salt := "aB3dE6gH"; new_time := 1600000300%float |}.

Definition stored_alice : UserModel :=
  {| id := Some 1;
     name := "Alice"; username := "alice"; email := "alice@example.org";
     password_hash := "plain$$correct horse";
     registration_date := 1600000000.5%float;
     terms_and_conditions_checked := true;
     is_admin := true; is_email_verified := Some false;
     email_verification_date := None;
     current_mentorship_role := None; membership_status := None;
     bio := None; location := None; occupation := None;
     current_organization := Some "Acme";
     slack_username := None; social_media_links := None;
     skills := None; interests := None; resume_url := None; photo_url := None;
     need_mentoring := Some false; available_to_mentor := Some false |}.

Definition stored_bob : UserModel :=
  {| id := Some 2;
     name := "Bob"; username := "bob"; email := "bob@example.org";
     password_hash := "plain$$battery staple";
     registration_date := 1600000100.25%float;
     terms_and_conditions_checked := true;
     is_admin := false; is_email_verified := Some false;
     email_verification_date := None;
     current_mentorship_role := None; membership_status := None;
     bio := None; location := None; occupation := None;
     current_organization := None;
     slack_username := None; social_media_links := None;
     skills := None; interests := None; resume_url := None; photo_url := None;
     need_mentoring := Some false; available_to_mentor := Some false |}.

Definition two_users_store : Store :=
  {| users := [stored_alice; stored_bob];
     personal_backgrounds := []; organizations := []; user_extensions := [];
     next_id := 3 |}.

Definition alice_background : PersonalBackgroundModel :=
  {| background_id := 10; background_user_id := 1; background_data := "alice" |}.

Definition other_background : PersonalBackgroundModel :=
  {| background_id := 11; background_user_id := 2; background_data := "someone else" |}.

Definition alice_extension : UserExtensionModel :=
  {| extension_id := 20; extension_user_id := 1; extension_data := "alice" |}.

Definition alice_organization : OrganizationModel :=
  {| organization_id := 30; organization_rep_id := Some 1;
     organization_data := "Acme Ltd" |}.

Definition alice_store : Store :=
  {| users := [stored_alice];
     personal_backgrounds := [alice_background; other_background];
     organizations := [alice_organization];
     user_extensions := [alice_extension];
     next_id := 2 |}.

Definition alice_store_after_delete : Store :=
  {| users := [];
     personal_backgrounds := [other_background];
     organizations :=
       [ {| organization_id := 30; organization_rep_id := None;
            organization_data := "Acme Ltd" |} ];
     user_extensions := [];
     next_id := 2 |}.

Section Passwords.

(** The password hashing library ([werkzeug.security]).  Generating a hash
    draws a fresh salt, which is made an argument here. *)
Variable generate_password_hash : string -> string -> string.
Variable check_password_hash : string -> string -> result bool.

(** Lines 169-171. *)
Definition set_password (salt password_plain_text : string) (self : UserModel)
  : UserModel :=
  set_password_hash (generate_password_hash salt password_plain_text) self.

(** Lines 174-176. *)
Definition check_password (self : UserModel) (password_plain_text : string)
  : result bool :=
  check_password_hash (password_hash self) password_plain_text.

(** Lines 85-104.  The instance starts with the four required fields and
    every other column unset: [None] for the three flags, which are nullable
    Boolean columns.  [password_hash], [is_admin] and [registration_date]
    are assigned on every path of the constructor and hold a placeholder
    until then.  The assignments follow in the order of the source. *)
Definition UserModel_init (st : Store) (salt : string) (now : float)
    (name username password email : string)
    (terms_and_conditions_checked : bool) : UserModel :=
  let self :=
    {| id := None;
       name := name; username := username; email := email;
       password_hash := "";
       registration_date := 0%float;
       terms_and_conditions_checked := terms_and_conditions_checked;
       is_admin := false; is_email_verified := None;
       email_verification_date := None;
       current_mentorship_role := None; membership_status := None;
       bio := None; location := None; occupation := None;
       current_organization := None; slack_username := None;
       social_media_links := None; skills := None; interests := None;
       resume_url := None; photo_url := None;
       need_mentoring := None; available_to_mentor := None |} in
  let self := set_password salt password self in
  let self := set_is_admin (if is_empty st then true else false) self in
  let self := set_is_email_verified (Some false) self in
  let self := set_registration_date now self in
  let self := set_need_mentoring (Some false) self in
  set_available_to_mentor (Some false) self.

Definition construct (st : Store) (c : creation) : UserModel :=
  UserModel_init st (new_salt c) (new_time c) (new_name c) (new_username c)
    (new_password c) (new_email c) (new_terms_and_conditions_checked c).

(** Later password changes, oldest first, each with the salt drawn for it. *)
Definition change_passwords (changes : list (string * string)) (self : UserModel)
  : UserModel :=
  fold_left (fun u change => set_password (fst change) (snd change) u) changes self.

(** Creating an account: construct the instance, then save it.  When the
    save raises, the tables are unchanged and the instance stays
    unsaved. *)
Definition create (st : Store) (c : creation) : Store * UserModel :=
  let user := construct st c in
  match save_to_db st user with
  | Ok (st', user') => (st', user')
  | Raise _ => (st, user)
  end.

(** The tables after a list of creations. *)
Fixpoint create_store (st : Store) (cs : list creation) : Store :=
  match cs with
  | [] => st
  | c :: rest => create_store (fst (create st c)) rest
  end.

(** ** Properties of the constructor and of the serialisation *)

(** C8: a newly constructed user is not verified, neither needs nor offers
    mentoring, and carries the reading of the clock taken by the
    constructor as its registration date. *)
Theorem init_default_values (st : Store) (salt : string) (now : float)
    (name username password email : string) (terms : bool) :
  let user := UserModel_init st salt now name username password email terms in
  is_email_verified user = Some false /\
  need_mentoring user = Some false /\
  available_to_mentor user = Some false /\
  registration_date user = now.
Proof.
  cbv zeta. repeat split.
Qed.

Lemma init_required_fields (st : Store) (salt : string) (now : float)
    (name' username' password email' : string) (terms : bool) :
  let user := UserModel_init st salt now name' username' password email' terms in
  id user = None /\ name user = name' /\ username user = username' /\
  email user = email' /\ terms_and_conditions_checked user = terms /\
  password_hash user = generate_password_hash salt password.
Proof.
  cbv zeta. repeat split.
Qed.

(** C10: the serialised dictionary has the key [password_hash], and the
    value under it is the stored hash of the user. *)
Theorem json_exposes_password_hash (st : Store) (self : UserModel) :
  In "password_hash" (map fst (json st self)) /\
  assoc "password_hash" (json st self) = Some (PyStr (password_hash self)).
Proof.
  split.
  - simpl. tauto.
  - reflexivity.
Qed.

(** C9: under the key [current_organization] the dictionary holds the
    related organisation record (or [None]), never a string; the
    dictionary does not depend on the [current_organization] column at
    all. *)
Theorem json_current_organization_is_relationship (st : Store) (self : UserModel) :
  assoc "current_organization" (json st self)
    = Some (of_option PyOrganization (organization st self)) /\
  (forall s, assoc "current_organization" (json st self) <> Some (PyStr s)) /\
  (forall v, json st (set_current_organization v self) = json st self).
Proof.
  split; [reflexivity | split].
  - intros s. cbn. destruct (organization st self); discriminate.
  - intros v. reflexivity.
Qed.

(** ** Properties of the query helpers *)

(** C5: [is_company_rep] is neither a column nor a relationship of the
    entity, and [get_all_representatives] raises on every store and for
    every argument. *)
Theorem get_all_representatives_always_raises :
  ~ In "is_company_rep" attribute_names /\
  assoc "is_company_rep" columns = None /\
  forall (st : Store) (is_company_rep : bool),
    get_all_representatives st is_company_rep = Raise InvalidRequestError.
Proof.
  split; [| split].
  - intros H. simpl in H.
    repeat (destruct H as [H | H]; [discriminate H |]). exact H.
  - reflexivity.
  - intros st b. reflexivity.
Qed.


Lemma first_filter (p : UserModel -> bool) (P : UserModel -> Prop)
    (rows : list UserModel) :
  (forall r, p r = true <-> P r) ->
  first_match P rows (first (filter p rows)).
Proof.
  intros Hp. induction rows as [| r rows IH]; simpl.
  - intros r [].
  - destruct (p r) eqn:E; simpl.
    + exists [], rows. repeat split.
      * apply Hp, E.
      * intros r' [].
    + assert (Hr : ~ P r) by (rewrite <- Hp, E; discriminate).
      destruct (first (filter p rows)) as [u |]; simpl in *.
      * destruct IH as (before & after & -> & Hu & Hb).
        exists (r :: before), after. repeat split; trivial.
        intros r' [<- | Hin]; auto.
      * intros r' [<- | Hin]; auto.
Qed.

Lemma filter_by_nul (key : string) (x : string) (rows : list UserModel)
    (column : UserModel -> PyValue) :
  assoc key columns = Some column -> has_nul x = true ->
  filter_by key (PyStr x) rows = Raise ValueError.
Proof.
  intros Hkey Hx. unfold filter_by. rewrite Hkey. simpl. rewrite Hx. reflexivity.
Qed.

(** C6, as amended: for a username or an email that holds no NUL, and for
    every id, the lookup returns (it does not raise); it returns [None]
    exactly when no persisted user matches, and the first matching user of
    the table otherwise.  For a username or an email that holds a NUL both
    lookups raise [ValueError]. *)
Theorem find_by_returns_first_match_or_none (st : Store) :
  (forall x, has_nul x = false ->
     exists found,
       find_by_username st x = Ok found /\
       first_match (fun u => username u = x) (users st) found) /\
  (forall x, has_nul x = false ->
     exists found,
       find_by_email st x = Ok found /\
       first_match (fun u => email u = x) (users st) found) /\
  (forall i, exists found,
      find_by_id st i = Ok found /\
      first_match (fun u => id u = Some i) (users st) found) /\
  (forall x, has_nul x = true ->
     find_by_username st x = Raise ValueError /\
     find_by_email st x = Raise ValueError).
Proof.
  split; [| split; [| split]].
  - intros x Hx. eexists. split.
    + unfold find_by_username, filter_by. simpl. rewrite Hx. reflexivity.
    + apply first_filter. intros r. simpl. apply String.eqb_eq.
  - intros x Hx. eexists. split.
    + unfold find_by_email, filter_by. simpl. rewrite Hx. reflexivity.
    + apply first_filter. intros r. simpl. apply String.eqb_eq.
  - intros i. eexists. split; [reflexivity |].
    apply first_filter. intros r. simpl. destruct (id r) as [j |]; simpl.
    + rewrite Z.eqb_eq. split; congruence.
    + split; discriminate.
  - intros x Hx. split.
    + unfold find_by_username.
      rewrite (filter_by_nul "username" x (users st) (fun u => PyStr (username u)) eq_refl Hx).
      reflexivity.
    + unfold find_by_email.
      rewrite (filter_by_nul "email" x (users st) (fun u => PyStr (email u)) eq_refl Hx).
      reflexivity.
Qed.

(** The claim as first stated fails: no user is stored under the username
    made of one NUL, and the lookup raises instead of returning [None]. *)
Lemma find_by_username_raises_on_nul :
  (forall r, In r (users empty_store) -> username r <> String NUL "") /\
  find_by_username empty_store (String NUL "") <> Ok None /\
  find_by_username empty_store (String NUL "") = Raise ValueError.
Proof.
  split; [intros r [] | split; [discriminate | reflexivity]].
Qed.

Lemma first_match_none_iff (P : UserModel -> Prop) (rows : list UserModel)
    (found : option UserModel) :
  first_match P rows found ->
  (found = None <-> forall r, In r rows -> ~ P r).
Proof.
  intros H. split.
  - intros ->. exact H.
  - intros Hno. destruct found as [u |]; [| reflexivity].
    destruct H as (before & after & -> & Hu & _).
    exfalso. apply (Hno u); [apply in_elt | exact Hu].
Qed.

(** ** Uniqueness of usernames and emails *)

Lemma has_id_true (i : Z) (r : UserModel) : has_id i r = true <-> id r = Some i.
Proof.
  unfold has_id. destruct (id r) as [j |]; simpl.
  - rewrite Z.eqb_eq. split; congruence.
  - split; discriminate.
Qed.

Lemma has_id_absent (i : Z) (rows : list UserModel) :
  existsb (has_id i) rows = false -> ~ In (Some i) (map id rows).
Proof.
  intros H Hin. apply in_map_iff in Hin. destruct Hin as (r & Hr & Hin).
  assert (E : existsb (has_id i) rows = true).
  { apply existsb_exists. exists r. split; [exact Hin | now apply has_id_true]. }
  congruence.
Qed.

Lemma violates_unique_absent (u : UserModel) (rows : list UserModel) :
  violates_unique u rows = false ->
  ~ In (username u) (map username rows) /\ ~ In (email u) (map email rows).
Proof.
  intros H.
  assert (Hno : forall r, In r rows -> same_username_or_email u r = false).
  { intros r Hin. destruct (same_username_or_email u r) eqn:E; [| reflexivity].
    assert (E' : violates_unique u rows = true)
      by (apply existsb_exists; exists r; split; assumption).
    congruence. }
  split; intros Hin; apply in_map_iff in Hin; destruct Hin as (r & Hr & Hin);
    specialize (Hno r Hin); unfold same_username_or_email in Hno;
    apply orb_false_iff in Hno; destruct Hno as [Hu He].
  - apply String.eqb_neq in Hu. congruence.
  - apply String.eqb_neq in He. congruence.
Qed.

Lemma violates_unique_present (u r : UserModel) (rows : list UserModel) :
  In r rows -> username r = username u \/ email r = email u ->
  violates_unique u rows = true.
Proof.
  intros Hin H. apply existsb_exists. exists r. split; [exact Hin |].
  unfold same_username_or_email. apply orb_true_iff.
  destruct H as [H | H]; [left | right]; rewrite H; apply String.eqb_refl.
Qed.

(** Dropping rows keeps a key free of duplicates. *)
Lemma filter_keeps_unique {K : Type} (key : UserModel -> K)
    (keep : UserModel -> bool) (rows : list UserModel) :
  NoDup (map key rows) -> NoDup (map key (filter keep rows)).
Proof.
  induction rows as [| r rows IH]; simpl; intros Hnd; [constructor |].
  apply NoDup_cons_iff in Hnd. destruct Hnd as [Hfresh Hrest].
  destruct (keep r); simpl; auto.
  constructor; auto.
  rewrite in_map_iff. intros (r' & Hkey & Hin).
  apply filter_In in Hin. apply Hfresh.
  rewrite in_map_iff. exists r'. tauto.
Qed.

Lemma untouched_rows (i : Z) (self : UserModel) (rows : list UserModel) :
  ~ In (Some i) (map id rows) ->
  filter (fun r => negb (has_id i r)) rows = rows /\
  map (fun r => if has_id i r then self else r) rows = rows.
Proof.
  induction rows as [| r rows IH]; simpl; intros H; [split; reflexivity |].
  assert (E : has_id i r = false).
  { destruct (has_id i r) eqn:E; [| reflexivity].
    apply has_id_true in E. exfalso. apply H. left. exact E. }
  rewrite E. simpl.
  destruct IH as [-> ->]; [tauto | split; reflexivity].
Qed.

(** An update touches exactly one row when primary keys are unique. *)
Lemma updated_row (i : Z) (self : UserModel) (rows : list UserModel) :
  NoDup (map id rows) ->
  existsb (has_id i) rows = true ->
  exists before r after,
    rows = before ++ r :: after /\ id r = Some i /\
    filter (fun r => negb (has_id i r)) rows = before ++ after /\
    map (fun r => if has_id i r then self else r) rows = before ++ self :: after.
Proof.
  induction rows as [| r rows IH]; simpl; intros Hnd Hex; [discriminate |].
  inversion Hnd as [| ? ? Hnotin Hrest]; subst.
  destruct (has_id i r) eqn:E; simpl.
  - apply has_id_true in E. rewrite E in Hnotin.
    destruct (untouched_rows i self rows Hnotin) as [-> ->].
    exists [], r, rows. repeat split; assumption.
  - simpl in Hex. destruct (IH Hrest Hex) as (before & r' & after & -> & Hid & -> & ->).
    exists (r :: before), r', after. repeat split; assumption.
Qed.

Lemma NoDup_map_replace {A B : Type} (f : A -> B) (before after : list A) (old new : A) :
  NoDup (map f (before ++ old :: after)) ->
  ~ In (f new) (map f (before ++ after)) ->
  NoDup (map f (before ++ new :: after)).
Proof.
  rewrite !map_app. simpl. intros Hnd Hnew.
  apply NoDup_remove_1 in Hnd.
  apply (NoDup_Add (Add_app (f new) (map f before) (map f after))).
  split; assumption.
Qed.

(** The two ways a save can return: an insert under a fresh primary key, or
    an update of the one row that has the key of the instance. *)
Lemma save_to_db_inversion (st st' : Store) (self self' : UserModel) :
  save_to_db st self = Ok (st', self') ->
  holds_nul self = false /\ too_long self = false /\
  ((id self = None /\
   existsb (has_id (next_id st)) (users st) = false /\
   violates_unique self (users st) = false /\
   self' = set_id (Some (next_id st)) self /\
   st' = with_users (users st ++ [self']) (next_id st + 1) st)
  \/
  (exists i,
     id self = Some i /\
     existsb (has_id i) (users st) = true /\
     violates_unique self (filter (fun r => negb (has_id i r)) (users st)) = false /\
     self' = self /\
     st' = with_users (map (fun r => if has_id i r then self else r) (users st))
                      (next_id st) st)).
Proof.
  unfold save_to_db. destruct (id self) as [i |].
  - destruct (existsb (has_id i) (users st)) eqn:Ex; [| discriminate].
    destruct (holds_nul self); [discriminate |].
    destruct (too_long self); [discriminate |].
    destruct (violates_unique self _) eqn:Ev; [discriminate |].
    intros H. injection H as <- <-. split; [| split]; trivial. right. exists i. auto.
  - destruct (holds_nul self); [discriminate |].
    destruct (too_long self); [discriminate |].
    destruct (existsb _ _) eqn:Ex; [discriminate |].
    destruct (violates_unique self (users st)) eqn:Ev; [discriminate |].
    simpl. intros H. injection H as <- <-. split; [| split]; trivial. left. auto.
Qed.

(** Splits a successful save into its insert and update cases, naming the
    facts each case provides. *)
Ltac invert_save H :=
  apply save_to_db_inversion in H;
  destruct H as (Hbind & Hfit &
                 [(Hkey & Hpk & Hfree & -> & ->) | (i & Hkey & Hrow & Hfree & -> & ->)]).

Lemma save_preserves_unique_keys (st st' : Store) (self self' : UserModel) :
  unique_keys st -> save_to_db st self = Ok (st', self') -> unique_keys st'.
Proof.
  intros (Hid & Hun & Hem) Hsave. invert_save Hsave; unfold unique_keys; simpl.
  - apply has_id_absent in Hpk.
    apply violates_unique_absent in Hfree. destruct Hfree as [Eu Ee].
    rewrite !map_app. simpl.
    split; [| split]; (apply NoDup_app; [assumption | repeat constructor; intros [] |]);
      intros a Hin [<- | []]; auto.
  - destruct (updated_row i self (users st) Hid Hrow)
      as (before & r & after & Hrows & Hr & Hfilter & Hmap).
    rewrite Hfilter in Hfree.
    apply violates_unique_absent in Hfree. destruct Hfree as [Eu Ee].
    rewrite Hmap. rewrite Hrows in Hid, Hun, Hem.
    split; [| split].
    + rewrite map_app in *. simpl in *. rewrite Hkey, <- Hr. exact Hid.
    + apply NoDup_map_replace with (old := r); assumption.
    + apply NoDup_map_replace with (old := r); assumption.
Qed.

Lemma delete_preserves_unique_keys (st st' : Store) (self : UserModel) :
  unique_keys st -> delete_from_db st self = Ok st' -> unique_keys st'.
Proof.
  intros (Hid & Hun & Hem). unfold delete_from_db.
  destruct (id self) as [i |]; [| discriminate].
  destruct (existsb (has_id i) (users st)); [| discriminate].
  intros H. injection H as <-. unfold unique_keys. simpl.
  repeat split; apply filter_keeps_unique; assumption.
Qed.

Lemma reachable_unique_keys (st : Store) : reachable st -> unique_keys st.
Proof.
  induction 1 as [| st self st' self' _ IH Hsave | st self st' _ IH Hdel].
  - repeat split; constructor.
  - exact (save_preserves_unique_keys _ _ _ _ IH Hsave).
  - exact (delete_preserves_unique_keys _ _ _ IH Hdel).
Qed.

Lemma NoDup_map_distinct {B : Type} (f : UserModel -> B) (st : Store) (a b : UserModel) :
  NoDup (map f (users st)) -> distinct_rows st a b -> f a <> f b.
Proof.
  intros Hnd (i & j & Hij & Ha & Hb) Heq. apply Hij.
  apply (proj1 (NoDup_nth_error _) Hnd).
  - rewrite length_map. apply nth_error_Some. congruence.
  - rewrite !nth_error_map, Ha, Hb. simpl. congruence.
Qed.

(** C4: in every store reachable from the empty one through saves and
    deletions, two distinct persisted users have different usernames and
    different emails. *)
Theorem usernames_and_emails_unique (st : Store) (a b : UserModel) :
  reachable st -> distinct_rows st a b ->
  username a <> username b /\ email a <> email b.
Proof.
  intros Hreach Hab. destruct (reachable_unique_keys st Hreach) as (_ & Hun & Hem).
  split; eapply NoDup_map_distinct; eassumption.
Qed.

(** Saving a new user whose username or email is already taken raises and
    so leaves the table as it was. *)
Lemma save_duplicate_raises (st : Store) (self r : UserModel) :
  id self = None -> In r (users st) ->
  username r = username self \/ email r = email self ->
  exists e, save_to_db st self = Raise e.
Proof.
  intros Hid Hin Hdup. unfold save_to_db. rewrite Hid.
  rewrite (violates_unique_present self r (users st) Hin Hdup), orb_true_r.
  destruct (holds_nul self); [eexists; reflexivity |].
  destruct (too_long self); eexists; reflexivity.
Qed.

(** ** Deletion and the related records *)

Lemma delete_from_db_inversion (st st' : Store) (self : UserModel) :
  delete_from_db st self = Ok st' ->
  exists i,
    id self = Some i /\
    existsb (has_id i) (users st) = true /\
    users st' = filter (fun r => negb (has_id i r)) (users st) /\
    personal_backgrounds st'
      = filter (fun b => negb (background_user_id b =? i)) (personal_backgrounds st) /\
    organizations st' = map (detach i) (organizations st) /\
    user_extensions st'
      = filter (fun e => negb (extension_user_id e =? i)) (user_extensions st).
Proof.
  unfold delete_from_db. destruct (id self) as [i |]; [| discriminate].
  destruct (existsb (has_id i) (users st)) eqn:Ex; [| discriminate].
  intros H. injection H as <-. exists i. simpl. repeat split; auto.
Qed.

(** Deleting a persisted user does not raise. *)
Lemma delete_from_db_succeeds (st : Store) (self : UserModel) (i : Z) :
  id self = Some i -> (exists r, In r (users st) /\ id r = Some i) ->
  exists st', delete_from_db st self = Ok st'.
Proof.
  intros Hid (r & Hin & Hr). unfold delete_from_db. rewrite Hid.
  assert (E : existsb (has_id i) (users st) = true).
  { apply existsb_exists. exists r. split; [exact Hin | now apply has_id_true]. }
  rewrite E. eexists. reflexivity.
Qed.

Lemma detach_id (i : Z) (o : OrganizationModel) :
  organization_id (detach i o) = organization_id o /\
  organization_data (detach i o) = organization_data o.
Proof.
  unfold detach. destruct (option_Z_eqb _ _); split; reflexivity.
Qed.

Lemma detach_rep (i : Z) (o : OrganizationModel) :
  organization_rep_id (detach i o) <> Some i.
Proof.
  unfold detach. destruct (option_Z_eqb (organization_rep_id o) (Some i)) eqn:E; simpl.
  - discriminate.
  - intros H. rewrite H in E. simpl in E. rewrite Z.eqb_refl in E. discriminate.
Qed.

(** C3: after a deletion, the personal background and the user extension
    attached to the user are gone from their tables, and no record of
    either table refers to the user any more; the organisation attached to
    the user is still in its table, with the same key and contents and
    with no representative, and every organisation of the table is kept. *)
Theorem delete_cascades_and_detaches (st st' : Store) (self : UserModel) :
  delete_from_db st self = Ok st' ->
  (forall b, background st self = Some b -> ~ In b (personal_backgrounds st')) /\
  (forall e, user_extension st self = Some e -> ~ In e (user_extensions st')) /\
  background st' self = None /\
  user_extension st' self = None /\
  (forall o, organization st self = Some o ->
     In {| organization_id := organization_id o;
           organization_rep_id := None;
           organization_data := organization_data o |} (organizations st')) /\
  organization st' self = None /\
  map organization_id (organizations st') = map organization_id (organizations st) /\
  map organization_data (organizations st') = map organization_data (organizations st).
Proof.
  intros Hdel.
  destruct (delete_from_db_inversion _ _ _ Hdel) as (i & Hid & _ & _ & Hb & Ho & He).
  unfold background, user_extension, organization. rewrite Hid, Hb, Ho, He.
  repeat split.
  - intros b Hfind Hin. apply find_some in Hfind. apply filter_In in Hin.
    destruct Hfind as [_ E], Hin as [_ E']. rewrite E in E'. discriminate.
  - intros e Hfind Hin. apply find_some in Hfind. apply filter_In in Hin.
    destruct Hfind as [_ E], Hin as [_ E']. rewrite E in E'. discriminate.
  - destruct (find _ (filter _ _)) as [b |] eqn:Hfind; [| reflexivity].
    apply find_some in Hfind. destruct Hfind as [Hin E].
    apply filter_In in Hin. destruct Hin as [_ E']. rewrite E in E'. discriminate.
  - destruct (find _ (filter _ _)) as [e |] eqn:Hfind; [| reflexivity].
    apply find_some in Hfind. destruct Hfind as [Hin E].
    apply filter_In in Hin. destruct Hin as [_ E']. rewrite E in E'. discriminate.
  - intros o Hfind. apply find_some in Hfind. destruct Hfind as [Hin E].
    apply in_map_iff. exists o. split; [| exact Hin].
    unfold detach. rewrite E. reflexivity.
  - destruct (find _ (map _ _)) as [o |] eqn:Hfind; [| reflexivity].
    apply find_some in Hfind. destruct Hfind as [Hin E].
    apply in_map_iff in Hin. destruct Hin as (o' & <- & _).
    exfalso. apply (detach_rep i o').
    destruct (organization_rep_id (detach i o')) as [j |]; simpl in E; [| discriminate].
    apply Z.eqb_eq in E. congruence.
  - rewrite map_map. apply map_ext. intros o. apply detach_id.
  - rewrite map_map. apply map_ext. intros o. apply detach_id.
Qed.

(** ** Administrator bootstrap *)

Lemma is_empty_true (st : Store) : is_empty st = true <-> users st = [].
Proof.
  unfold is_empty. destruct (users st); simpl; split; congruence.
Qed.

Lemma construct_is_admin (st : Store) (c : creation) :
  is_admin (construct st c) = is_empty st.
Proof.
  unfold construct, UserModel_init. simpl. destruct (is_empty st); reflexivity.
Qed.

Lemma save_keeps_is_admin (st st' : Store) (self self' : UserModel) :
  save_to_db st self = Ok (st', self') -> is_admin self' = is_admin self.
Proof.
  intros Hsave. invert_save Hsave; reflexivity.
Qed.

Lemma save_keeps_nonempty (st st' : Store) (self self' : UserModel) :
  save_to_db st self = Ok (st', self') -> is_empty st = false -> is_empty st' = false.
Proof.
  intros Hsave. invert_save Hsave; unfold is_empty; simpl;
    destruct (users st); simpl; congruence.
Qed.

Lemma create_in_nonempty (st : Store) (c : creation) :
  is_empty st = false ->
  is_admin (snd (create st c)) = false /\ is_empty (fst (create st c)) = false.
Proof.
  intros He. pose proof (construct_is_admin st c) as Ha. rewrite He in Ha.
  unfold create. destruct (save_to_db st (construct st c)) as [[st' u'] | e] eqn:Es; simpl.
  - split.
    + rewrite (save_keeps_is_admin _ _ _ _ Es). exact Ha.
    + exact (save_keeps_nonempty _ _ _ _ Es He).
  - split; assumption.
Qed.

Lemma create_store_keeps_nonempty (cs : list creation) (st : Store) :
  is_empty st = false -> is_empty (create_store st cs) = false.
Proof.
  revert st. induction cs as [| c cs IH]; intros st He; simpl; [exact He |].
  apply IH. exact (proj2 (create_in_nonempty st c He)).
Qed.

(** C2, as amended: the constructor sets the administrator flag exactly
    when the users table is empty at that moment.  So the user constructed
    on an empty table is an administrator, and once its save has returned,
    every user constructed later, after any list of further account
    creations, is not.  Nothing is promised about a second construction
    while the table is still empty. *)
Theorem first_created_user_is_admin (st st1 : Store) (c : creation) (u1 : UserModel) :
  is_empty st = true ->
  save_to_db st (construct st c) = Ok (st1, u1) ->
  (forall st0 c0, is_admin (construct st0 c0) = is_empty st0) /\
  is_admin (construct st c) = true /\
  is_admin u1 = true /\
  forall cs c', is_admin (construct (create_store st1 cs) c') = false.
Proof.
  intros He Hsave. split; [exact construct_is_admin |].
  pose proof (construct_is_admin st c) as Ha. rewrite He in Ha.
  split; [exact Ha | split].
  - rewrite (save_keeps_is_admin _ _ _ _ Hsave). exact Ha.
  - intros cs c'. rewrite construct_is_admin.
    apply create_store_keeps_nonempty.
    apply save_to_db_inversion in Hsave.
    destruct Hsave as (_ & _ & [(_ & _ & _ & _ & ->) | (i & Hkey & _)]).
    + unfold is_empty. simpl. destruct (users st); reflexivity.
    + discriminate Hkey.
Qed.

(** ** Passwords *)

Lemma set_password_hashes (salt p : string) (u : UserModel) :
  password_hash (set_password salt p u) = generate_password_hash salt p.
Proof.
  reflexivity.
Qed.

Lemma construct_hashes (st : Store) (c : creation) :
  password_hash (construct st c) = generate_password_hash (new_salt c) (new_password c).
Proof.
  reflexivity.
Qed.

Lemma last_cons {A : Type} (a d : A) (l : list A) : last (a :: l) d = last l a.
Proof.
  revert a d. induction l as [| b l IH]; intros a d; [reflexivity |].
  change (last (a :: b :: l) d) with (last (b :: l) d).
  rewrite IH. symmetry. apply IH.
Qed.

End Passwords.

(** ** The hashing library *)

Example round_constants :
  nth 0 werkzeug.K 0 = 0x428a2f98 /\ nth 63 werkzeug.K 0 = 0xc67178f2 /\
  nth 0 werkzeug.H0 0 = 0x6a09e667 /\ nth 7 werkzeug.H0 0 = 0x5be0cd19.
Proof. vm_compute. repeat split. Qed.

Example sha256_abc :
  werkzeug.hex (werkzeug.sha256 (werkzeug.bytes "abc"))
  = "ba7816bf8f01cfea414140de5dae2223b00361a396177a9cb410ff61f20015ad".
Proof. vm_compute. reflexivity. Qed.

Example sha256_two_blocks :
  werkzeug.hex (werkzeug.sha256 (werkzeug.bytes
    "abcdbcdecdefdefgefghfghighijhijkijkljklmklmnlmnomnopnopq"))
  = "248d6a61d20638b8e5c026930c3e6039a33ce45964ff2167f6ecedd419db06c1".
Proof. vm_compute. reflexivity. Qed.

Example pbkdf2_one_iteration :
  werkzeug.pbkdf2_hex "password" "salt" 1
  = "120fb6cffcf8b32c43e7225256c4f837a86548c92ccc35480805987cb70be17b".
Proof. vm_compute. reflexivity. Qed.

Example pbkdf2_two_iterations :
  werkzeug.pbkdf2_hex "a" "salt" 2
  = "7ff76b82ae4943db0fd9ec9a9f777dae7ffee62b3f79b044beadac19a137b8c4".
Proof. vm_compute. reflexivity. Qed.

Example pbkdf2_long_key :
  werkzeug.pbkdf2_hex
    "kkkkkkkkkkkkkkkkkkkkkkkkkkkkkkkkkkkkkkkkkkkkkkkkkkkkkkkkkkkkkkkkkkkkkk" "salt" 1
  = "7b696074405b3196e3f4a04e932143ef4ca172afda5504594a7e0b0e4a04a783".
Proof. vm_compute. reflexivity. Qed.

Lemma partition_at_first (sep : Ascii.ascii) (a b : string) :
  werkzeug.occurs sep a = false ->
  werkzeug.partition sep (a ++ String sep b)%string = Some (a, b).
Proof.
  induction a as [| c a IH]; simpl; intros H.
  - rewrite Ascii.eqb_refl. reflexivity.
  - apply orb_false_iff in H. destruct H as [Hc Ha].
    rewrite Hc, (IH Ha). reflexivity.
Qed.

Lemma salt_char_is_not_dollar (c : Ascii.ascii) :
  werkzeug.salt_char c = true -> Ascii.eqb c werkzeug.dollar = false.
Proof.
  intros H. destruct (Ascii.eqb c werkzeug.dollar) eqn:E; [| reflexivity].
  apply Ascii.eqb_eq in E. subst c. discriminate H.
Qed.

Lemma salt_has_no_dollar (salt : string) :
  werkzeug.is_salt salt = true ->
  werkzeug.occurs werkzeug.dollar salt = false /\ String.eqb salt "" = false.
Proof.
  unfold werkzeug.is_salt. intros H. apply andb_true_iff in H. destruct H as [Hlen Hall].
  split.
  - clear Hlen. induction salt as [| c salt IH]; simpl in *; [reflexivity |].
    apply andb_true_iff in Hall. destruct Hall as [Hc Hrest].
    rewrite (salt_char_is_not_dollar c Hc), (IH Hrest). reflexivity.
  - destruct salt; [discriminate Hlen | reflexivity].
Qed.

Lemma default_method :
  werkzeug.parse_method "pbkdf2:sha256:150000"
  = werkzeug.Pbkdf2Sha256 werkzeug.DEFAULT_PBKDF2_ITERATIONS.
Proof.
  vm_compute. reflexivity.
Qed.

(** Checking a plaintext against a generated hash compares two derived
    keys under the salt of the hash. *)
Lemma check_of_generated (salt p q : string) :
  werkzeug.is_salt salt = true ->
  werkzeug.check_password_hash (werkzeug.generate_password_hash salt p) q
  = Ok (String.eqb
          (werkzeug.pbkdf2_hex q salt werkzeug.DEFAULT_PBKDF2_ITERATIONS)
          (werkzeug.pbkdf2_hex p salt werkzeug.DEFAULT_PBKDF2_ITERATIONS)).
Proof.
  intros Hsalt. destruct (salt_has_no_dollar salt Hsalt) as [Hdollar Hempty].
  unfold werkzeug.check_password_hash, werkzeug.generate_password_hash.
  rewrite partition_at_first by reflexivity.
  rewrite partition_at_first by exact Hdollar.
  unfold werkzeug.hash_internal. rewrite default_method, Hempty. reflexivity.
Qed.

Lemma change_passwords_last_hash (generate : string -> string -> string)
    (changes : list (string * string)) (u : UserModel) (salt0 p0 : string) :
  werkzeug.is_salt salt0 = true ->
  Forall (fun change => werkzeug.is_salt (fst change) = true) changes ->
  password_hash u = generate salt0 p0 ->
  exists salt,
    werkzeug.is_salt salt = true /\
    password_hash (change_passwords generate changes u)
      = generate salt (last (map snd changes) p0).
Proof.
  revert u salt0 p0. induction changes as [| c rest IH]; intros u salt0 p0 Hs0 Hall Hu.
  - exists salt0. split; assumption.
  - apply Forall_cons_iff in Hall. destruct Hall as [Hc Hrest].
    simpl map. rewrite last_cons.
    apply (IH (set_password generate (fst c) (snd c) u) (fst c) (snd c) Hc Hrest).
    apply set_password_hashes.
Qed.

(** C1, as amended: after construction and any number of later password
    changes, each with a salt the library can draw, the stored hash is the
    hash of the plaintext set last under one of those salts;
    [check_password] returns true for that plaintext, and for any plaintext
    it returns whether the key derived from it under the stored salt equals
    the key derived from the plaintext set last.  Nothing is promised for
    other plaintexts that derive the same key. *)
Theorem check_password_accepts_only_current (st : Store) (salt : string) (now : float)
    (name username password email : string) (terms : bool)
    (changes : list (string * string)) :
  werkzeug.is_salt salt = true ->
  Forall (fun change => werkzeug.is_salt (fst change) = true) changes ->
  let user :=
    change_passwords werkzeug.generate_password_hash changes
      (UserModel_init werkzeug.generate_password_hash
         st salt now name username password email terms) in
  let current := last (map snd changes) password in
  exists salt',
    werkzeug.is_salt salt' = true /\
    password_hash user = werkzeug.generate_password_hash salt' current /\
    check_password werkzeug.check_password_hash user current = Ok true /\
    forall q,
      check_password werkzeug.check_password_hash user q
      = Ok (String.eqb
              (werkzeug.pbkdf2_hex q salt' werkzeug.DEFAULT_PBKDF2_ITERATIONS)
              (werkzeug.pbkdf2_hex current salt' werkzeug.DEFAULT_PBKDF2_ITERATIONS)).
Proof.
  intros Hsalt Hall. cbv zeta.
  destruct (change_passwords_last_hash werkzeug.generate_password_hash changes
              (UserModel_init werkzeug.generate_password_hash
                 st salt now name username password email terms)
              salt password Hsalt Hall eq_refl) as (salt' & Hsalt' & Hhash).
  exists salt'. split; [exact Hsalt' | split; [exact Hhash |]].
  unfold check_password. rewrite Hhash. split.
  - rewrite check_of_generated by exact Hsalt'. rewrite String.eqb_refl. reflexivity.
  - intros q. apply check_of_generated, Hsalt'.
Qed.

(** A plaintext and the same plaintext followed by a NUL give the two
    hashes of the key derivation the same key. *)
Lemma padded_key :
  werkzeug.hmac_key (werkzeug.bytes ("correct horse" ++ String NUL ""))
  = werkzeug.hmac_key (werkzeug.bytes "correct horse").
Proof.
  vm_compute. reflexivity.
Qed.

(** The claim as first stated fails: a plaintext different from the one
    that was set is accepted. *)
Lemma check_password_accepts_padded_plaintext :
  ("correct horse" ++ String NUL "")%string <> new_password alice_creation /\
  check_password werkzeug.check_password_hash
    (construct werkzeug.generate_password_hash empty_store alice_creation)
    ("correct horse" ++ String NUL "")
  = Ok true.
Proof.
  split; [discriminate |].
  unfold check_password. rewrite construct_hashes.
  rewrite check_of_generated by reflexivity.
  unfold werkzeug.pbkdf2_hex. rewrite padded_key.
  rewrite String.eqb_refl. reflexivity.
Qed.

(** ** The theorems at sample inputs *)

Lemma check_password_accepts_only_current_witness :
  exists salt',
    werkzeug.is_salt salt' = true /\
    check_password werkzeug.check_password_hash
      (change_passwords werkzeug.generate_password_hash [("n3wSa1t0", "tr0ub4dor")]
         (construct werkzeug.generate_password_hash empty_store alice_creation))
      "tr0ub4dor"
    = Ok true.
Proof.
  destruct (check_password_accepts_only_current
              empty_store "Xy12ab9Q" 1600000000.5%float
              "Alice" "alice" "correct horse" "alice@example.org" true
              [("n3wSa1t0", "tr0ub4dor")])
    as (salt' & Hsalt' & _ & Haccept & _).
  - reflexivity.
  - repeat constructor.
  - exists salt'. split; [exact Hsalt' | exact Haccept].
Defined.

Lemma find_by_returns_first_match_or_none_witness :
  exists found,
    find_by_username two_users_store "bob" = Ok found /\
    first_match (fun u => username u = "bob") (users two_users_store) found.
Proof.
  exact (proj1 (find_by_returns_first_match_or_none two_users_store) "bob" eq_refl).
Defined.

Lemma first_created_user_is_admin_witness :
  let saved := create plain_generate_password_hash empty_store alice_creation in
  is_admin (snd saved) = true /\
  is_admin
    (construct plain_generate_password_hash
       (create_store plain_generate_password_hash (fst saved) [bob_creation])
       alice_again_creation)
  = false.
Proof.
  destruct (first_created_user_is_admin plain_generate_password_hash
              empty_store
              (fst (create plain_generate_password_hash empty_store alice_creation))
              alice_creation
              (snd (create plain_generate_password_hash empty_store alice_creation)))
    as (_ & _ & Hfirst & Hlater).
  - reflexivity.
  - vm_compute. reflexivity.
  - split; [exact Hfirst | exact (Hlater [bob_creation] alice_again_creation)].
Defined.

(** The claim as first stated fails: a second user constructed while the
    table is still empty is an administrator too, be it because the first
    was never saved or because its save raised. *)
Lemma second_constructed_user_is_admin_too :
  is_admin (construct plain_generate_password_hash empty_store alice_creation) = true /\
  is_admin (construct plain_generate_password_hash empty_store bob_creation) = true /\
  save_to_db empty_store
    (construct plain_generate_password_hash empty_store long_name_creation)
  = Raise DataError /\
  is_admin
    (construct plain_generate_password_hash
       (fst (create plain_generate_password_hash empty_store long_name_creation))
       bob_creation)
  = true.
Proof.
  repeat split; vm_compute; reflexivity.
Qed.

Lemma delete_cascades_and_detaches_witness :
  delete_from_db alice_store stored_alice = Ok alice_store_after_delete /\
  ~ In alice_background (personal_backgrounds alice_store_after_delete) /\
  ~ In alice_extension (user_extensions alice_store_after_delete) /\
  In {| organization_id := 30; organization_rep_id := None;
        organization_data := "Acme Ltd" |}
     (organizations alice_store_after_delete).
Proof.
  split; [reflexivity |].
  destruct (delete_cascades_and_detaches alice_store alice_store_after_delete
              stored_alice eq_refl) as (Hb & He & _ & _ & Ho & _).
  split; [apply Hb; reflexivity | split; [apply He; reflexivity |]].
  apply (Ho alice_organization). reflexivity.
Defined.

Lemma usernames_and_emails_unique_witness :
  let st1 := fst (create plain_generate_password_hash empty_store alice_creation) in
  let st2 := fst (create plain_generate_password_hash st1 bob_creation) in
  exists a b,
    users st2 = [a; b] /\ username a <> username b /\ email a <> email b.
Proof.
  pose (g := plain_generate_password_hash).
  pose (st1 := fst (create g empty_store alice_creation)).
  pose (st2 := fst (create g st1 bob_creation)).
  cbv zeta. eexists. eexists. split; [vm_compute; reflexivity |].
  apply (usernames_and_emails_unique st2).
  - apply (reachable_save st1 (construct g st1 bob_creation)
             st2 (snd (create g st1 bob_creation))).
    + apply (reachable_save empty_store (construct g empty_store alice_creation)
               st1 (snd (create g empty_store alice_creation))).
      * apply reachable_empty.
      * vm_compute. reflexivity.
    + vm_compute. reflexivity.
  - exists 0%nat, 1%nat. split; [discriminate | split; vm_compute; reflexivity].
Defined.

(** * Further properties of the model *)

(** ** Lookups in a table with unique keys *)

Lemma find_by_username_filter (st : Store) (x : string) :
  has_nul x = false ->
  find_by_username st x
    = Ok (first (filter (fun u => String.eqb (username u) x) (users st))).
Proof.
  intros Hx. unfold find_by_username, filter_by. simpl. rewrite Hx. reflexivity.
Qed.

Lemma find_by_email_filter (st : Store) (x : string) :
  has_nul x = false ->
  find_by_email st x
    = Ok (first (filter (fun u => String.eqb (email u) x) (users st))).
Proof.
  intros Hx. unfold find_by_email, filter_by. simpl. rewrite Hx. reflexivity.
Qed.

Lemma find_by_nul (st : Store) (x : string) :
  has_nul x = true ->
  find_by_username st x = Raise ValueError /\
  find_by_email st x = Raise ValueError.
Proof.
  intros Hx. unfold find_by_username, find_by_email, filter_by. simpl.
  rewrite Hx. split; reflexivity.
Qed.

(** A row that could be written holds no NUL in its two unique columns. *)
Lemma bindable_keys (u : UserModel) :
  holds_nul u = false ->
  has_nul (username u) = false /\ has_nul (email u) = false.
Proof.
  unfold holds_nul, text_values. simpl. intros H.
  repeat (apply orb_false_iff in H; destruct H as [? H]). auto.
Qed.

Lemma set_id_text_values (v : option Z) (u : UserModel) :
  text_values (set_id v u) = text_values u.
Proof.
  reflexivity.
Qed.

Lemma reachable_rows_bindable (st : Store) :
  reachable st -> forall r, In r (users st) -> holds_nul r = false.
Proof.
  induction 1 as [| st self st' self' _ IH Hsave | st self st' _ IH Hdel].
  - intros r [].
  - apply save_to_db_inversion in Hsave.
    destruct Hsave as (Hbind & _ &
      [(_ & _ & _ & -> & ->) | (i & _ & _ & _ & -> & ->)]); simpl; intros r Hin.
    + apply in_app_or in Hin. destruct Hin as [Hin | [<- | []]]; [auto |].
      unfold holds_nul. rewrite set_id_text_values. exact Hbind.
    + apply in_map_iff in Hin. destruct Hin as (r0 & Hr & Hin).
      destruct (has_id i r0); subst; auto.
  - destruct (delete_from_db_inversion _ _ _ Hdel) as (i & _ & _ & Hrows & _).
    intros r Hin. rewrite Hrows in Hin. apply filter_In in Hin. apply IH. tauto.
Qed.

Lemma find_by_id_filter (st : Store) (i : Z) :
  find_by_id st i = Ok (first (filter (has_id i) (users st))).
Proof.
  unfold find_by_id, filter_by. simpl. do 2 f_equal.
  apply filter_ext. intros u. unfold has_id. destruct (id u); reflexivity.
Qed.

Lemma key_identifies_row {K : Type} (key : UserModel -> K)
    (rows : list UserModel) (a b : UserModel) :
  NoDup (map key rows) -> In a rows -> In b rows -> key a = key b -> a = b.
Proof.
  induction rows as [| r rows IH]; simpl; intros Hnd Ha Hb Hkey; [contradiction |].
  apply NoDup_cons_iff in Hnd. destruct Hnd as [Hfresh Hrest].
  destruct Ha as [<- | Ha], Hb as [<- | Hb]; auto.
  - exfalso. apply Hfresh. rewrite Hkey. apply in_map, Hb.
  - exfalso. apply Hfresh. rewrite <- Hkey. apply in_map, Ha.
Qed.

Lemma first_of_only_match (p : UserModel -> bool) (rows : list UserModel)
    (r : UserModel) :
  In r rows -> p r = true ->
  (forall r', In r' rows -> p r' = true -> r' = r) ->
  first (filter p rows) = Some r.
Proof.
  induction rows as [| r0 rows IH]; simpl; intros Hin Hp Honly; [contradiction |].
  destruct (p r0) eqn:E; simpl.
  - f_equal. apply Honly; auto.
  - apply IH; auto. destruct Hin as [<- | Hin]; [congruence | exact Hin].
Qed.

Lemma first_of_no_match (p : UserModel -> bool) (rows : list UserModel) :
  (forall r, In r rows -> p r = false) -> first (filter p rows) = None.
Proof.
  induction rows as [| r0 rows IH]; simpl; intros Hno; [reflexivity |].
  rewrite (Hno r0) by auto. apply IH. auto.
Qed.

Lemma filter_after_delete (p keep : UserModel -> bool) (rows : list UserModel) :
  (forall r, In r rows -> p r = true -> keep r = true) ->
  filter p (filter keep rows) = filter p rows.
Proof.
  induction rows as [| r0 rows IH]; simpl; intros Hkeep; [reflexivity |].
  destruct (keep r0) eqn:Ek; simpl; destruct (p r0) eqn:Ep;
    try (rewrite IH by auto; reflexivity).
  rewrite (Hkeep r0) in Ek by auto. discriminate.
Qed.

Lemma save_stores_instance (st st' : Store) (self self' : UserModel) :
  save_to_db st self = Ok (st', self') ->
  In self' (users st') /\ (exists i, id self' = Some i) /\
  holds_nul self' = false /\ too_long self' = false.
Proof.
  intros Hsave. apply save_to_db_inversion in Hsave.
  destruct Hsave as (Hbind & Hfit &
    [(Hkey & _ & _ & -> & ->) | (i & Hkey & Hrow & _ & -> & ->)]); simpl.
  - split; [apply in_or_app; right; now left |].
    split; [eexists; reflexivity |].
    unfold holds_nul, too_long. rewrite set_id_text_values. auto.
  - split; [| split; [exists i; exact Hkey | auto]].
    apply existsb_exists in Hrow. destruct Hrow as (r & Hin & Hr).
    apply in_map_iff. exists r. rewrite Hr. auto.
Qed.

Lemma key_range_invariant (st : Store) :
  reachable st ->
  1 <= next_id st /\
  forall r, In r (users st) -> exists k, id r = Some k /\ 1 <= k < next_id st.
Proof.
  induction 1 as [| st self st' self' _ [Hseq IH] Hsave | st self st' _ [Hseq IH] Hdel].
  - split; [simpl; lia | intros r []].
  - apply save_to_db_inversion in Hsave.
    destruct Hsave as (Hbind & Hfit &
      [(Hkey & _ & _ & -> & ->) | (i & Hkey & Hrow & _ & -> & ->)]); simpl.
    + split; [lia |]. intros r Hin. apply in_app_or in Hin.
      destruct Hin as [Hin | [<- | []]].
      * destruct (IH r Hin) as (k & Hk & Hrange). exists k. split; [exact Hk | lia].
      * exists (next_id st). split; [reflexivity | lia].
    + split; [exact Hseq |]. intros r Hin. apply in_map_iff in Hin.
      destruct Hin as (r0 & Hr & Hin). destruct (has_id i r0) eqn:E.
      * subst r. apply has_id_true in E. destruct (IH r0 Hin) as (k & Hk & Hrange).
        exists k. split; [congruence | exact Hrange].
      * subst r. apply IH, Hin.
  - destruct (delete_from_db_inversion _ _ _ Hdel) as (i & _ & _ & Hrows & _).
    assert (Hn : next_id st' = next_id st).
    { unfold delete_from_db in Hdel. destruct (id self); [| discriminate].
      destruct (existsb _ _); [| discriminate]. injection Hdel as <-. reflexivity. }
    rewrite Hn. split; [exact Hseq |].
    intros r Hin. rewrite Hrows in Hin. apply filter_In in Hin. apply IH. tauto.
Qed.

Lemma stored_row_lookups (st : Store) (r : UserModel) :
  unique_keys st -> In r (users st) -> holds_nul r = false ->
  find_by_username st (username r) = Ok (Some r) /\
  find_by_email st (email r) = Ok (Some r) /\
  (forall i, id r = Some i -> find_by_id st i = Ok (Some r)).
Proof.
  intros (Hid & Hun & Hem) Hin Hbind.
  destruct (bindable_keys r Hbind) as [Hu He]. split; [| split].
  - rewrite find_by_username_filter by exact Hu. f_equal.
    apply first_of_only_match; [exact Hin | apply String.eqb_refl |].
    intros r' Hin' E. apply String.eqb_eq in E.
    exact (key_identifies_row username _ _ _ Hun Hin' Hin E).
  - rewrite find_by_email_filter by exact He. f_equal.
    apply first_of_only_match; [exact Hin | apply String.eqb_refl |].
    intros r' Hin' E. apply String.eqb_eq in E.
    exact (key_identifies_row email _ _ _ Hem Hin' Hin E).
  - intros i Hi. rewrite find_by_id_filter. f_equal.
    apply first_of_only_match; [exact Hin | now apply has_id_true |].
    intros r' Hin' E. apply has_id_true in E.
    apply (key_identifies_row id _ _ _ Hid Hin' Hin). congruence.
Qed.

(** X1: in every reachable store, looking a stored user up by its own
    username, email or primary key returns that very row. *)
Theorem lookup_returns_the_stored_row (st : Store) (r : UserModel) :
  reachable st -> In r (users st) ->
  find_by_username st (username r) = Ok (Some r) /\
  find_by_email st (email r) = Ok (Some r) /\
  exists i, id r = Some i /\ find_by_id st i = Ok (Some r).
Proof.
  intros Hreach Hin.
  destruct (stored_row_lookups st r (reachable_unique_keys st Hreach) Hin
              (reachable_rows_bindable st Hreach r Hin))
    as (Hu & He & Hi).
  destruct (proj2 (key_range_invariant st Hreach) r Hin) as (k & Hk & _).
  split; [exact Hu | split; [exact He |]]. exists k. split; [exact Hk | exact (Hi k Hk)].
Qed.

(** X2: after a save that returns, from a table with unique keys, the saved
    instance has a primary key and each of the three lookups on its own
    keys returns it. *)
Theorem saved_user_is_found (st st' : Store) (self self' : UserModel) :
  unique_keys st -> save_to_db st self = Ok (st', self') ->
  find_by_username st' (username self') = Ok (Some self') /\
  find_by_email st' (email self') = Ok (Some self') /\
  exists i, id self' = Some i /\ find_by_id st' i = Ok (Some self').
Proof.
  intros Hkeys Hsave.
  pose proof (save_preserves_unique_keys _ _ _ _ Hkeys Hsave) as Hkeys'.
  destruct (save_stores_instance _ _ _ _ Hsave) as (Hin & [i Hi] & Hbind & _).
  destruct (stored_row_lookups st' self' Hkeys' Hin Hbind) as (Hu & He & Hk).
  split; [exact Hu | split; [exact He |]]. exists i. split; [exact Hi | exact (Hk i Hi)].
Qed.

(** X3: after a deletion that returns, from a table with unique keys, the
    deleted user is found neither by its primary key nor by the username or
    the email its row had (a row the database can hold has no NUL in
    them). *)
Theorem deleted_user_is_not_found (st st' : Store) (self r : UserModel) :
  unique_keys st -> delete_from_db st self = Ok st' ->
  In r (users st) -> id r = id self -> holds_nul r = false ->
  (forall i, id self = Some i -> find_by_id st' i = Ok None) /\
  find_by_username st' (username r) = Ok None /\
  find_by_email st' (email r) = Ok None.
Proof.
  intros (Hid & Hun & Hem) Hdel Hin Hr Hbind.
  destruct (bindable_keys r Hbind) as [Hnu Hne].
  destruct (delete_from_db_inversion _ _ _ Hdel) as (i & Hi & _ & Hrows & _).
  assert (Hgone : forall r', In r' (users st') -> id r' <> Some i).
  { intros r' Hin' E. rewrite Hrows in Hin'. apply filter_In in Hin'.
    destruct Hin' as [_ Hkeep]. apply has_id_true in E. rewrite E in Hkeep. discriminate. }
  assert (Hsub : forall r', In r' (users st') -> In r' (users st)).
  { intros r' Hin'. rewrite Hrows in Hin'. apply filter_In in Hin'. tauto. }
  split; [| split].
  - intros j Hj. rewrite find_by_id_filter. f_equal. apply first_of_no_match.
    intros r' Hin'. destruct (has_id j r') eqn:E; [| reflexivity].
    apply has_id_true in E. exfalso. apply (Hgone r' Hin'). congruence.
  - rewrite find_by_username_filter by exact Hnu. f_equal. apply first_of_no_match.
    intros r' Hin'. apply String.eqb_neq. intros E.
    apply (Hgone r' Hin').
    rewrite (key_identifies_row username _ _ _ Hun (Hsub r' Hin') Hin E). congruence.
  - rewrite find_by_email_filter by exact Hne. f_equal. apply first_of_no_match.
    intros r' Hin'. apply String.eqb_neq. intros E.
    apply (Hgone r' Hin').
    rewrite (key_identifies_row email _ _ _ Hem (Hsub r' Hin') Hin E). congruence.
Qed.

(** X4: a deletion that returns leaves every other user where it was: the
    lookup of any other primary key, and of any username or email that the
    deleted row did not carry, gives what it gave before. *)
Theorem delete_keeps_other_lookups (st st' : Store) (self : UserModel) (i : Z) :
  delete_from_db st self = Ok st' -> id self = Some i ->
  (forall j, j <> i -> find_by_id st' j = find_by_id st j) /\
  (forall x, (forall r, In r (users st) -> id r = Some i -> username r <> x) ->
     find_by_username st' x = find_by_username st x) /\
  (forall x, (forall r, In r (users st) -> id r = Some i -> email r <> x) ->
     find_by_email st' x = find_by_email st x).
Proof.
  intros Hdel Hi.
  destruct (delete_from_db_inversion _ _ _ Hdel) as (i' & Hi' & _ & Hrows & _).
  assert (i' = i) by congruence. subst i'.
  split; [| split].
  - intros j Hj. rewrite !find_by_id_filter, Hrows. do 2 f_equal.
    apply filter_after_delete. intros r _ E. apply has_id_true in E.
    destruct (has_id i r) eqn:E'; [| reflexivity].
    apply has_id_true in E'. congruence.
  - intros x Hx. destruct (has_nul x) eqn:Hnul.
    { now rewrite (proj1 (find_by_nul st' x Hnul)), (proj1 (find_by_nul st x Hnul)). }
    rewrite !find_by_username_filter, Hrows by exact Hnul. do 2 f_equal.
    apply filter_after_delete. intros r Hin E. apply String.eqb_eq in E.
    destruct (has_id i r) eqn:E'; [| reflexivity].
    apply has_id_true in E'. exfalso. exact (Hx r Hin E' E).
  - intros x Hx. destruct (has_nul x) eqn:Hnul.
    { now rewrite (proj2 (find_by_nul st' x Hnul)), (proj2 (find_by_nul st x Hnul)). }
    rewrite !find_by_email_filter, Hrows by exact Hnul. do 2 f_equal.
    apply filter_after_delete. intros r Hin E. apply String.eqb_eq in E.
    destruct (has_id i r) eqn:E'; [| reflexivity].
    apply has_id_true in E'. exfalso. exact (Hx r Hin E' E).
Qed.

(** ** What a save and a deletion leave alone *)

(** X5: a deletion that returns touches the related records of the deleted
    user only: a background or an extension of another user is in its table
    afterwards exactly when it was before, an organisation represented by
    another user, or by nobody, stays as it is, and the organisations table
    keeps its length. *)
Theorem delete_keeps_records_of_others (st st' : Store) (self : UserModel) (i : Z) :
  delete_from_db st self = Ok st' -> id self = Some i ->
  (forall b, background_user_id b <> i ->
     (In b (personal_backgrounds st') <-> In b (personal_backgrounds st))) /\
  (forall e, extension_user_id e <> i ->
     (In e (user_extensions st') <-> In e (user_extensions st))) /\
  (forall o, organization_rep_id o <> Some i ->
     In o (organizations st) -> In o (organizations st')) /\
  List.length (organizations st') = List.length (organizations st).
Proof.
  intros Hdel Hi.
  destruct (delete_from_db_inversion _ _ _ Hdel) as (i' & Hi' & _ & _ & Hb & Ho & He).
  assert (i' = i) by congruence. subst i'.
  split; [| split; [| split]].
  - intros b Hb'. rewrite Hb, filter_In.
    apply Z.eqb_neq in Hb'. rewrite Hb'. simpl. tauto.
  - intros e He'. rewrite He, filter_In.
    apply Z.eqb_neq in He'. rewrite He'. simpl. tauto.
  - intros o Ho' Hin. rewrite Ho, in_map_iff. exists o. split; [| exact Hin].
    unfold detach.
    destruct (option_Z_eqb (organization_rep_id o) (Some i)) eqn:E; [| reflexivity].
    destruct (organization_rep_id o) as [j |]; simpl in E; [| discriminate].
    apply Z.eqb_eq in E. subst j. congruence.
  - rewrite Ho. apply length_map.
Qed.

(** ** Saving again, and saving after a deletion *)

Lemma with_users_same (st : Store) : with_users (users st) (next_id st) st = st.
Proof.
  destruct st. reflexivity.
Qed.

Lemma update_by_same_row (i : Z) (r : UserModel) (rows : list UserModel) :
  NoDup (map id rows) -> In r rows -> id r = Some i ->
  map (fun r' => if has_id i r' then r else r') rows = rows.
Proof.
  intros Hnd Hin Hi. rewrite <- (map_id rows) at 2. apply map_ext_in.
  intros r' Hin'. destruct (has_id i r') eqn:E; [| reflexivity].
  apply has_id_true in E. symmetry.
  apply (key_identifies_row id rows r' r Hnd Hin' Hin). congruence.
Qed.

Lemma save_of_stored_row (st : Store) (r : UserModel) (i : Z) :
  unique_keys st -> In r (users st) -> id r = Some i ->
  holds_nul r = false -> too_long r = false ->
  save_to_db st r = Ok (st, r).
Proof.
  intros (Hid & Hun & Hem) Hin Hi Hbind Hfit. unfold save_to_db.
  rewrite Hi, Hbind, Hfit.
  assert (Hrow : existsb (has_id i) (users st) = true).
  { apply existsb_exists. exists r. split; [exact Hin | now apply has_id_true]. }
  rewrite Hrow.
  assert (Hfree : violates_unique r (filter (fun r' => negb (has_id i r')) (users st)) = false).
  { destruct (violates_unique _ _) eqn:E; [| reflexivity].
    apply existsb_exists in E. destruct E as (r' & Hin' & Hsame).
    apply filter_In in Hin'. destruct Hin' as [Hin' Hother].
    assert (Hne : r' <> r).
    { intros ->. apply has_id_true in Hi. rewrite Hi in Hother. discriminate. }
    exfalso. apply Hne. unfold same_username_or_email in Hsame.
    apply orb_true_iff in Hsame. destruct Hsame as [E | E]; apply String.eqb_eq in E.
    - exact (key_identifies_row username _ _ _ Hun Hin' Hin (eq_sym E)).
    - exact (key_identifies_row email _ _ _ Hem Hin' Hin (eq_sym E)). }
  rewrite Hfree, (update_by_same_row i r (users st) Hid Hin Hi), with_users_same.
  reflexivity.
Qed.

(** X9: saving is idempotent: after a save that returns, from a table with
    unique keys, saving the returned instance again returns it once more
    and leaves the store exactly as it is. *)
Theorem save_twice_is_save_once (st st' : Store) (self self' : UserModel) :
  unique_keys st -> save_to_db st self = Ok (st', self') ->
  save_to_db st' self' = Ok (st', self').
Proof.
  intros Hkeys Hsave.
  destruct (save_stores_instance _ _ _ _ Hsave) as (Hin & [i Hi] & Hbind & Hfit).
  apply (save_of_stored_row st' self' i); auto.
  exact (save_preserves_unique_keys _ _ _ _ Hkeys Hsave).
Qed.

(** X10: a user that was deleted cannot be saved back: after a deletion
    that returns, [save_to_db] on the same instance raises
    [InvalidRequestError]. *)
Theorem deleted_user_cannot_be_saved (st st' : Store) (self : UserModel) :
  delete_from_db st self = Ok st' ->
  save_to_db st' self = Raise InvalidRequestError.
Proof.
  intros Hdel.
  destruct (delete_from_db_inversion _ _ _ Hdel) as (i & Hi & _ & Hrows & _).
  unfold save_to_db. rewrite Hi, Hrows.
  assert (E : existsb (has_id i) (filter (fun r => negb (has_id i r)) (users st)) = false).
  { destruct (existsb _ _) eqn:E; [| reflexivity].
    apply existsb_exists in E. destruct E as (r & Hin & Hr).
    apply filter_In in Hin. destruct Hin as [_ Hkeep]. rewrite Hr in Hkeep. discriminate. }
  rewrite E. reflexivity.
Qed.

(** ** Administrators *)

Lemma admins_and_others (rows : list UserModel) :
  Permutation
    (filter (fun u => Bool.eqb (is_admin u) true) rows
       ++ filter (fun u => Bool.eqb (is_admin u) false) rows)
    rows.
Proof.
  induction rows as [| r rows IH]; simpl; [constructor |].
  destruct (is_admin r); simpl.
  - constructor. exact IH.
  - apply Permutation_sym, Permutation_cons_app, Permutation_sym, IH.
Qed.

(** X11: [get_all_admins] never raises; called with [True] and with [False]
    it splits the table: every stored user is in exactly one of the two
    lists, the first holds the administrators and the second the others. *)
Theorem get_all_admins_splits_the_table (st : Store) :
  exists admins others,
    get_all_admins st true = Ok admins /\
    get_all_admins st false = Ok others /\
    Permutation (admins ++ others) (users st) /\
    Forall (fun u => is_admin u = true) admins /\
    Forall (fun u => is_admin u = false) others.
Proof.
  exists (filter (fun u => Bool.eqb (is_admin u) true) (users st)),
         (filter (fun u => Bool.eqb (is_admin u) false) (users st)).
  split; [reflexivity | split; [reflexivity | split; [apply admins_and_others |]]].
  split; apply Forall_forall; intros u Hin; apply filter_In in Hin;
    destruct Hin as [_ E]; apply Bool.eqb_prop in E; exact E.
Qed.

Section Bootstrap.

Variable generate_password_hash : string -> string -> string.




Lemma construct_has_no_key (st : Store) (c : creation) :
  id (construct generate_password_hash st c) = None.
Proof.
  reflexivity.
Qed.


(** X13: the administrator bootstrap recurs: when the only stored user is
    deleted, the next user to be constructed is an administrator again. *)
Theorem admin_bootstrap_recurs_on_an_emptied_table (st st' : Store)
    (self r : UserModel) (c : creation) :
  users st = [r] -> delete_from_db st self = Ok st' ->
  is_admin (construct generate_password_hash st' c) = true.
Proof.
  intros Hone Hdel. rewrite construct_is_admin. apply is_empty_true.
  destruct (delete_from_db_inversion _ _ _ Hdel) as (i & _ & Hrow & Hrows & _).
  rewrite Hrows, Hone in *. simpl in *. rewrite orb_false_r in Hrow.
  rewrite Hrow. reflexivity.
Qed.

End Bootstrap.

(** ** The serialised dictionary and the columns *)

Lemma of_option_PyInt_inj (a b : option Z) :
  of_option PyInt a = of_option PyInt b -> a = b.
Proof.
  destruct a, b; simpl; congruence.
Qed.

Lemma of_option_PyBool_inj (a b : option bool) :
  of_option PyBool a = of_option PyBool b -> a = b.
Proof.
  destruct a, b; simpl; congruence.
Qed.

Lemma of_option_PyStr_inj (a b : option string) :
  of_option PyStr a = of_option PyStr b -> a = b.
Proof.
  destruct a, b; simpl; congruence.
Qed.

Lemma of_option_PyDateTime_inj (a b : option datetime) :
  of_option PyDateTime a = of_option PyDateTime b -> a = b.
Proof.
  destruct a, b; simpl; congruence.
Qed.

(** Case analysis on the column a key names. *)
Ltac column_cases H key :=
  repeat match type of H with
         | context [String.eqb ?k key] =>
             let E := fresh "E" in
             destruct (String.eqb k key) eqn:E;
             [ apply String.eqb_eq in E; subst key; simpl in H | ]
         end.

(** X14: the dictionary has one entry per declared column, under pairwise
    different keys; the entry of every column but [current_organization]
    holds the value of that column. *)
Theorem json_mirrors_the_columns (st : Store) (self : UserModel) :
  List.length (json st self) = List.length columns /\
  NoDup (map fst (json st self)) /\
  forall key column,
    assoc key columns = Some column ->
    key <> "current_organization" ->
    assoc key (json st self) = Some (column self).
Proof.
  split; [reflexivity | split].
  - simpl. repeat (constructor; [intros H; simpl in H; intuition discriminate |]).
    constructor.
  - intros key column H Hne. unfold columns in H. cbn [assoc] in H.
    column_cases H key;
      try (injection H as <-; reflexivity);
      try discriminate H.
    exfalso. apply Hne. reflexivity.
Qed.

(** X15: the dictionary determines every column except
    [current_organization]: two users with the same dictionary differ at
    most in that column. *)
Theorem json_determines_all_other_columns (st : Store) (u1 u2 : UserModel) :
  json st u1 = json st u2 ->
  set_current_organization None u1 = set_current_organization None u2.
Proof.
  destruct u1, u2. unfold json, set_current_organization. simpl. intros H.
  injection H. intros.
  repeat match goal with
         | E : of_option PyInt _ = of_option PyInt _ |- _ => apply of_option_PyInt_inj in E
         | E : of_option PyStr _ = of_option PyStr _ |- _ => apply of_option_PyStr_inj in E
         | E : of_option PyBool _ = of_option PyBool _ |- _ => apply of_option_PyBool_inj in E
         | E : of_option PyDateTime _ = of_option PyDateTime _ |- _ =>
             apply of_option_PyDateTime_inj in E
         end.
  subst. reflexivity.
Qed.

(** ** The printed form *)

Lemma append_cancel_l (p a b : string) :
  (p ++ a)%string = (p ++ b)%string -> a = b.
Proof.
  induction p as [| c p IH]; simpl; intros H; [exact H |].
  injection H as H. exact (IH H).
Qed.

Lemma length_append (a b : string) :
  String.length (a ++ b)%string = (String.length a + String.length b)%nat.
Proof.
  induction a as [| c a IH]; simpl; [reflexivity |]. now rewrite IH.
Qed.

Lemma append_cancel_r (a b c : string) :
  (a ++ c)%string = (b ++ c)%string -> a = b.
Proof.
  revert b. induction a as [| x a IH]; intros [| y b]; simpl; intros H.
  - reflexivity.
  - apply (f_equal String.length) in H. simpl in H. rewrite length_append in H. lia.
  - apply (f_equal String.length) in H. simpl in H. rewrite length_append in H. lia.
  - injection H as -> H. f_equal. exact (IH b H).
Qed.

Lemma first_line_splits (a b r1 r2 : string) :
  single_line a = true -> single_line b = true ->
  (a ++ String line_feed r1)%string = (b ++ String line_feed r2)%string ->
  a = b /\ r1 = r2.
Proof.
  revert b. induction a as [| x a IH]; intros [| y b]; simpl; intros Ha Hb H.
  - injection H as ->. auto.
  - injection H as <- _. apply andb_true_iff in Hb. destruct Hb as [Hb _].
    rewrite Ascii.eqb_refl in Hb. discriminate.
  - injection H as -> _. apply andb_true_iff in Ha. destruct Ha as [Ha _].
    rewrite Ascii.eqb_refl in Ha. discriminate.
  - injection H as -> H.
    apply andb_true_iff in Ha. apply andb_true_iff in Hb.
    destruct (IH b (proj2 Ha) (proj2 Hb) H) as [-> ->]. auto.
Qed.

(** X16: the printed form tells users apart by name and username as long
    as names hold no line feed: two users with single-line names and the
    same printed form have the same name and the same username. *)
Theorem repr_identifies_name_and_username (u1 u2 : UserModel) :
  single_line (name u1) = true -> single_line (name u2) = true ->
  UserModel_repr u1 = UserModel_repr u2 ->
  name u1 = name u2 /\ username u1 = username u2.
Proof.
  unfold UserModel_repr. intros H1 H2 H.
  apply (append_cancel_l "User name is ") in H.
  destruct (first_line_splits _ _ _ _ H1 H2 H) as [Hname Hrest].
  split; [exact Hname |].
  apply (append_cancel_l "User username is ") in Hrest.
  exact (append_cancel_r _ _ _ Hrest).
Qed.

(** Names with line feeds can make two different users print alike. *)
Lemma repr_is_ambiguous_with_line_feeds :
  let u1 :=
    UserModel_init plain_generate_password_hash empty_store "" 0%float
      ("a" ++ String line_feed "User username is b") "c" "" "" true in
  let u2 :=
    UserModel_init plain_generate_password_hash empty_store "" 0%float
      "a" ("b" ++ String line_feed "User username is c") "" "" true in
  UserModel_repr u1 = UserModel_repr u2 /\ name u1 <> name u2.
Proof.
  split; [reflexivity | discriminate].
Qed.

(** ** The empty table *)

(** X17: in a reachable store, [is_empty] holds exactly when no username
    can be found: on an empty table every lookup by a username without NUL
    returns [None], and on any other table the username of the first row is
    found. *)
Theorem is_empty_iff_no_username_is_found (st : Store) :
  reachable st ->
  (is_empty st = true <->
   (forall x, has_nul x = false -> find_by_username st x = Ok None)).
Proof.
  intros Hreach. split.
  - intros He x Hx. apply is_empty_true in He.
    rewrite find_by_username_filter by exact Hx. rewrite He. reflexivity.
  - intros Hnone. unfold is_empty. destruct (users st) as [| r rows] eqn:E; [reflexivity |].
    assert (Hr : has_nul (username r) = false).
    { apply bindable_keys, (reachable_rows_bindable st Hreach). rewrite E. now left. }
    specialize (Hnone (username r) Hr).
    rewrite find_by_username_filter in Hnone by exact Hr.
    rewrite E in Hnone. simpl in Hnone.
    rewrite String.eqb_refl in Hnone. discriminate.
Qed.

(** ** The further properties at sample inputs *)

Lemma two_users_store_reachable : reachable two_users_store.
Proof.
  apply (reachable_save
           (with_users [stored_alice] 2 empty_store) (set_id None stored_bob)
           two_users_store stored_bob); [| reflexivity].
  apply (reachable_save empty_store (set_id None stored_alice)
           (with_users [stored_alice] 2 empty_store) stored_alice); [| reflexivity].
  apply reachable_empty.
Qed.

Lemma alice_store_unique_keys : unique_keys alice_store.
Proof.
  repeat split; repeat constructor; intros [].
Qed.

Lemma lookup_returns_the_stored_row_witness :
  find_by_username two_users_store "bob" = Ok (Some stored_bob) /\
  find_by_email two_users_store "bob@example.org" = Ok (Some stored_bob) /\
  exists i, id stored_bob = Some i /\ find_by_id two_users_store i = Ok (Some stored_bob).
Proof.
  apply (lookup_returns_the_stored_row two_users_store stored_bob).
  - exact two_users_store_reachable.
  - right. left. reflexivity.
Defined.

Lemma saved_user_is_found_witness :
  let saved := create plain_generate_password_hash alice_store bob_creation in
  find_by_username (fst saved) "bob" = Ok (Some (snd saved)) /\
  find_by_email (fst saved) "bob@example.org" = Ok (Some (snd saved)) /\
  exists i, id (snd saved) = Some i /\ find_by_id (fst saved) i = Ok (Some (snd saved)).
Proof.
  apply (saved_user_is_found alice_store
           (fst (create plain_generate_password_hash alice_store bob_creation))
           (construct plain_generate_password_hash alice_store bob_creation)
           (snd (create plain_generate_password_hash alice_store bob_creation))).
  - exact alice_store_unique_keys.
  - vm_compute. reflexivity.
Defined.

Lemma deleted_user_is_not_found_witness :
  exists st',
    delete_from_db two_users_store stored_bob = Ok st' /\
    find_by_id st' 2 = Ok None /\
    find_by_username st' "bob" = Ok None /\
    find_by_email st' "bob@example.org" = Ok None.
Proof.
  eexists. split; [vm_compute; reflexivity |].
  destruct (deleted_user_is_not_found two_users_store
              (with_users [stored_alice] 3 two_users_store) stored_bob stored_bob)
    as (Hid & Hu & He).
  - exact (reachable_unique_keys _ two_users_store_reachable).
  - vm_compute. reflexivity.
  - right. left. reflexivity.
  - reflexivity.
  - reflexivity.
  - split; [exact (Hid 2 eq_refl) | split; [exact Hu | exact He]].
Defined.

Lemma delete_keeps_other_lookups_witness :
  let st' := with_users [stored_alice] 3 two_users_store in
  delete_from_db two_users_store stored_bob = Ok st' /\
  find_by_id st' 1 = find_by_id two_users_store 1 /\
  find_by_username st' "alice" = find_by_username two_users_store "alice".
Proof.
  cbv zeta. split; [vm_compute; reflexivity |].
  destruct (delete_keeps_other_lookups two_users_store
              (with_users [stored_alice] 3 two_users_store) stored_bob 2)
    as (Hid & Hu & _).
  - vm_compute. reflexivity.
  - reflexivity.
  - split; [apply Hid; discriminate |].
    apply Hu. intros r [<- | [<- | []]]; discriminate.
Defined.

Lemma delete_keeps_records_of_others_witness :
  In other_background (personal_backgrounds alice_store_after_delete) /\
  List.length (organizations alice_store_after_delete) = 1%nat.
Proof.
  destruct (delete_keeps_records_of_others alice_store alice_store_after_delete
              stored_alice 1 eq_refl eq_refl) as (Hb & _ & _ & Hlen).
  split; [| exact Hlen].
  apply (Hb other_background); [discriminate |]. right. left. reflexivity.
Defined.

Lemma save_twice_is_save_once_witness :
  let saved := create plain_generate_password_hash alice_store bob_creation in
  save_to_db (fst saved) (snd saved) = Ok (fst saved, snd saved).
Proof.
  apply (save_twice_is_save_once alice_store
           (fst (create plain_generate_password_hash alice_store bob_creation))
           (construct plain_generate_password_hash alice_store bob_creation)
           (snd (create plain_generate_password_hash alice_store bob_creation))).
  - exact alice_store_unique_keys.
  - vm_compute. reflexivity.
Defined.

Lemma deleted_user_cannot_be_saved_witness :
  save_to_db alice_store_after_delete stored_alice = Raise InvalidRequestError.
Proof.
  exact (deleted_user_cannot_be_saved alice_store alice_store_after_delete
           stored_alice eq_refl).
Defined.


Lemma admin_bootstrap_recurs_on_an_emptied_table_witness :
  is_admin (construct plain_generate_password_hash alice_store_after_delete bob_creation)
  = true.
Proof.
  exact (admin_bootstrap_recurs_on_an_emptied_table plain_generate_password_hash
           alice_store alice_store_after_delete stored_alice stored_alice
           bob_creation eq_refl eq_refl).
Defined.

Lemma json_mirrors_the_columns_witness :
  assoc "email" (json alice_store stored_alice) = Some (PyStr "alice@example.org").
Proof.
  apply (proj2 (proj2 (json_mirrors_the_columns alice_store stored_alice))
           "email" (fun u => PyStr (email u))).
  - reflexivity.
  - discriminate.
Defined.

Lemma json_determines_all_other_columns_witness :
  set_current_organization None stored_alice
  = set_current_organization None (set_current_organization (Some "Other") stored_alice).
Proof.
  exact (json_determines_all_other_columns alice_store stored_alice
           (set_current_organization (Some "Other") stored_alice) eq_refl).
Defined.

Lemma repr_identifies_name_and_username_witness :
  name stored_alice = name (set_id None stored_alice) /\
  username stored_alice = username (set_id None stored_alice).
Proof.
  exact (repr_identifies_name_and_username stored_alice (set_id None stored_alice)
           eq_refl eq_refl eq_refl).
Defined.

Lemma is_empty_iff_no_username_is_found_witness :
  find_by_username empty_store "alice" = Ok None.
Proof.
  exact (proj1 (is_empty_iff_no_username_is_found empty_store reachable_empty)
           eq_refl "alice" eq_refl).
Defined.

